(** * satellite-imagery-pipeline: the S3-triggered image transcoding handler

    A shallow embedding of [lambda_function.py] and the properties of its
    handler.  Python [str] values are Rocq strings; the functions of the
    Python standard library the handler calls on them ([str.upper],
    [str.rstrip], [os.path.basename], ...) are written out as CPython's
    [posixpath] and [genericpath] define them.  The collaborators the handler
    talks to (the S3 client, Pillow, [json.dumps], [unquote_plus]) are
    interfaces, with a reference instance to run the handler on concrete
    inputs. *)

From Stdlib Require Import ZArith Ascii String List Bool Lia DecimalString.
From stdpp Require Import base option gmap strings list.

Local Open Scope string_scope.

(** ** Python strings *)

Module PyStr.

Definition is_ascii_lower (c : ascii) : bool :=
  (97 <=? nat_of_ascii c)%nat && (nat_of_ascii c <=? 122)%nat.

Definition is_ascii_upper (c : ascii) : bool :=
  (65 <=? nat_of_ascii c)%nat && (nat_of_ascii c <=? 90)%nat.

Definition upper_char (c : ascii) : ascii :=
  if is_ascii_lower c then ascii_of_nat (nat_of_ascii c - 32) else c.

Definition lower_char (c : ascii) : ascii :=
  if is_ascii_upper c then ascii_of_nat (nat_of_ascii c + 32) else c.

(** [s.upper()] and [s.lower()]; characters outside ASCII are kept as they
    are (the format names the handler handles are ASCII). *)
Fixpoint upper (s : string) : string :=
  match s with
  | EmptyString => EmptyString
  | String c s' => String (upper_char c) (upper s')
  end.

Fixpoint lower (s : string) : string :=
  match s with
  | EmptyString => EmptyString
  | String c s' => String (lower_char c) (lower s')
  end.

(** [c in s] for a one-character [c]. *)
Fixpoint contains (c : ascii) (s : string) : bool :=
  match s with
  | EmptyString => false
  | String a s' => Ascii.eqb a c || contains c s'
  end.

(** [s.startswith(p)]. *)
Definition startswith (s p : string) : bool := String.prefix p s.

(** Truthiness of a string: the empty string is falsy. *)
Definition truthy (s : string) : bool :=
  match s with EmptyString => false | _ => true end.

(** [s.rfind(c)]: the index of the last [c], [-1] when there is none. *)
Fixpoint rfind (c : ascii) (s : string) : Z :=
  match s with
  | EmptyString => (-1)%Z
  | String a s' =>
      let r := rfind c s' in
      if (0 <=? r)%Z then (r + 1)%Z
      else if Ascii.eqb a c then 0%Z else (-1)%Z
  end.

Fixpoint take (n : nat) (s : string) : string :=
  match n, s with
  | S n', String a s' => String a (take n' s')
  | _, _ => EmptyString
  end.

Fixpoint drop (n : nat) (s : string) : string :=
  match n, s with
  | S n', String _ s' => drop n' s'
  | _, _ => s
  end.

(** [s[:i]], [s[i:]] and [s[i:j]] for indices that are not negative (the
    handler never slices with a negative one). *)
Definition slice_to (i : Z) (s : string) : string := take (Z.to_nat i) s.
Definition slice_from (i : Z) (s : string) : string := drop (Z.to_nat i) s.
Definition slice (i j : Z) (s : string) : string :=
  take (Z.to_nat (j - i)) (drop (Z.to_nat i) s).

(** [s.rstrip(c)] for a one-character [c]. *)
Fixpoint rstrip (c : ascii) (s : string) : string :=
  match s with
  | EmptyString => EmptyString
  | String a s' =>
      match rstrip c s' with
      | EmptyString => if Ascii.eqb a c then EmptyString else String a EmptyString
      | r => String a r
      end
  end.

(** [c * n]. *)
Fixpoint repeat (c : ascii) (n : nat) : string :=
  match n with
  | O => EmptyString
  | S n' => String c (repeat c n')
  end.

End PyStr.

(** ** [os.path] on a POSIX host *)

Module OsPath.
Import PyStr.

Definition sep : ascii := "/"%char.
Definition extsep : ascii := "."%char.

(** [posixpath.basename]. *)
Definition basename (p : string) : string :=
  let i := (rfind sep p + 1)%Z in
  slice_from i p.

(** [posixpath.dirname]. *)
Definition dirname (p : string) : string :=
  let i := (rfind sep p + 1)%Z in
  let head := slice_to i p in
  if truthy head && negb (String.eqb head (repeat sep (String.length head)))
  then rstrip sep head
  else head.

(** The [while] loop of [genericpath._splitext]: [Some] is its early
    [return], [None] is the loop running to its end. *)
Fixpoint splitext_loop (p : string) (dotIndex : Z) (n : nat)
         (filenameIndex : Z) : option (string * string) :=
  match n with
  | O => None
  | S n' =>
      if negb (String.eqb (slice filenameIndex (filenameIndex + 1) p)
                          (String extsep EmptyString))
      then Some (slice_to dotIndex p, slice_from dotIndex p)
      else splitext_loop p dotIndex n' (filenameIndex + 1)%Z
  end.

(** [posixpath.splitext]. *)
Definition splitext (p : string) : string * string :=
  let sepIndex := rfind sep p in
  let dotIndex := rfind extsep p in
  let fallthrough := (p, slice_to 0 p) in
  if (sepIndex <? dotIndex)%Z then
    let filenameIndex := (sepIndex + 1)%Z in
    match splitext_loop p dotIndex (Z.to_nat (dotIndex - filenameIndex))
                        filenameIndex with
    | Some r => r
    | None => fallthrough
    end
  else fallthrough.

End OsPath.

(** ** Python values, exceptions and results *)

(** The values a decoded JSON event is made of.  A [dict] is kept as its list
    of items (JSON object keys are strings). *)
#[warnings="-register-all"]
Inductive pyval : Type :=
| PNone
| PBool (b : bool)
| PInt (n : Z)
| PStr (s : string)
| PList (l : list pyval)
| PDict (d : list (string * pyval)).

(** Exceptions, with what their text is made of: the key that was missing,
    the kind of sequence indexed out of range, the value that could not be
    subscripted and the index tried, the value and the attribute it lacks. *)
Inductive exn : Type :=
| KeyError (key : pyval)
| IndexError (kind : string)
| TypeError (obj : pyval) (index : pyval)
| AttributeError (obj : pyval) (name : string)
| ValueError (msg : string)
| LibraryError (msg : string).  (* raised inside boto3 or Pillow *)

Inductive result (A : Type) : Type :=
| Ok (a : A)
| Raise (e : exn).
Arguments Ok {A} a.
Arguments Raise {A} e.

Definition result_bind {A B} (r : result A) (k : A -> result B) : result B :=
  match r with
  | Ok a => k a
  | Raise e => Raise e
  end.

Notation "'let*' x ':=' r 'in' k" := (result_bind r (fun x => k))
  (at level 10, x name, r at level 100, k at level 200).

Definition bytes : Type := list Byte.byte.

Fixpoint dict_lookup (d : list (string * pyval)) (k : string) : option pyval :=
  match d with
  | [] => None
  | (k', v) :: d' => if String.eqb k' k then Some v else dict_lookup d' k
  end.

(** [v[k]] for a string [k]. *)
Definition getitem (v : pyval) (k : string) : result pyval :=
  match v with
  | PDict d =>
      match dict_lookup d k with
      | Some x => Ok x
      | None => Raise (KeyError (PStr k))
      end
  | _ => Raise (TypeError v (PStr k))
  end.

(** [v[0]]. *)
Definition getitem0 (v : pyval) : result pyval :=
  match v with
  | PList (x :: _) => Ok x
  | PList [] => Raise (IndexError "list")
  | PStr (String c _) => Ok (PStr (String c EmptyString))
  | PStr EmptyString => Raise (IndexError "string")
  | PDict _ => Raise (KeyError (PInt 0))
  | _ => Raise (TypeError v (PInt 0))
  end.

(** ** Configuration and collaborators *)

(** The two settings read from the environment when the module is loaded. *)
Class Config := {
  PROCESSED_PREFIX : string;
  MAX_INPUT_SIZE_BYTES : Z
}.

Definition OUTPUT_SIZE : Z * Z := (256, 256)%Z.
Definition DEFAULT_OUTPUT_FORMAT : string := "JPEG".

Definition CONTENT_TYPE_MAP : gmap string string :=
  list_to_map [("JPEG", "image/jpeg"); ("JPG", "image/jpeg");
               ("PNG", "image/png"); ("WEBP", "image/webp")].

(** Library functions of the Python runtime the handler formats its messages
    and decodes the key with. *)
Class Runtime := {
  unquote_plus_str : string -> string;   (* urllib.parse.unquote_plus on a str *)
  json_dumps : string -> string;         (* json.dumps on a str *)
  str_exn : exn -> string                (* str(e) *)
}.

(** [str(n)] for an [int]. *)
Definition str_int (n : Z) : string :=
  NilZero.string_of_int (Z.to_int n).

(** What [get_object] answers: the fields the handler reads.  [Body] is the
    outcome of reading the streaming body to its end. *)
Record get_object_output := {
  ContentLength : option Z;
  ContentType : option string;
  Metadata : option (gmap string string);
  Body : result bytes
}.

Class S3Client := {
  get_object : pyval -> string -> result get_object_output;
  put_object : pyval -> string -> bytes -> string -> gmap string string -> result unit
}.

(** Pillow, as far as the handler uses it.  An operation that changes an
    image in place ([load], [paste]) answers the image afterwards. *)
Class Pillow := {
  image : Type;
  Image_open : bytes -> result image;
  Image_load : image -> result image;
  Image_new : string -> Z * Z -> Z * Z * Z -> result image;
  image_format : image -> option string;
  image_mode : image -> string;
  image_size : image -> Z * Z;
  image_info_has : image -> string -> bool;     (* key in image.info *)
  exif_transpose : image -> result image;
  convert : image -> string -> result image;
  resize : image -> Z * Z -> Z -> result image;
  split : image -> result (list image);
  paste : image -> image -> image -> result image;  (* background, pasted image, mask *)
  save : image -> string -> gmap string pyval -> result bytes
}.

Definition LANCZOS : Z := 1.

(** ** Event parsing *)

Definition _safe_get_record (event : pyval) : result pyval :=
  match (let* records := getitem event "Records" in getitem0 records) with
  | Ok record => Ok record
  | Raise _ =>
      Raise (ValueError "Invalid event structure: expected event['Records'][0]")
  end.

(** [unquote_plus] starts with [string.replace], which only a [str] has:
    on any other value the lookup of [replace] fails, and the exception
    names the value it failed on. *)
Definition unquote_plus `{Runtime} (v : pyval) : result string :=
  match v with
  | PStr s => Ok (unquote_plus_str s)
  | _ => Raise (AttributeError v "replace")
  end.

(** The body of the first [try] of the handler. *)
Definition parse_event `{Runtime} (event : pyval) : result (pyval * string) :=
  let* record := _safe_get_record event in
  let* bucket := (let* s3 := getitem record "s3" in let* b := getitem s3 "bucket" in getitem b "name") in
  let* key := (let* s3 := getitem record "s3" in let* o := getitem s3 "object" in
          let* k := getitem o "key" in unquote_plus k) in
  Ok (bucket, key).

(** ** The transcode decisions *)

Section Transcode.
Context `{Pillow}.

Definition _determine_output_format (original_format : option string)
           (im : image) : string :=
  let by_hint :=
    match original_format with
    | Some original_format =>
        if PyStr.truthy original_format then
          let fmt := PyStr.upper original_format in
          if bool_decide (is_Some (CONTENT_TYPE_MAP !! fmt)) then Some fmt else None
        else None
    | None => None
    end in
  match by_hint with
  | Some fmt => fmt
  | None =>
      if PyStr.contains "A" (image_mode im) then "PNG"
      else DEFAULT_OUTPUT_FORMAT
  end.

(** [split()[3]]. *)
Definition alpha_band (im : image) : result image :=
  let* bands := split im in
  match bands !! 3%nat with
  | Some band => Ok band
  | None => Raise (IndexError "tuple")
  end.

Definition _composite_for_jpeg (im : image) : result image :=
  if bool_decide (image_mode im = "RGBA" \/ image_mode im = "LA")
     || (String.eqb (image_mode im) "P" && image_info_has im "transparency")
  then
    let* background := Image_new "RGB" (image_size im) (255, 255, 255)%Z in
    let* src := convert im "RGBA" in
    let* mask := (let* rgba := convert im "RGBA" in alpha_band rgba) in
    paste background src mask
  else convert im "RGB".

(** Line 115: the colour mode handed to the resize. *)
Definition normalize_mode (im : image) : result image :=
  if PyStr.contains "A" (image_mode im) then convert im "RGBA"
  else convert im "RGB".

(** The body of the resize [try]. *)
Definition resize_stage (im : image) : result image :=
  let* im := exif_transpose im in
  let* im := normalize_mode im in
  resize im OUTPUT_SIZE LANCZOS.

Definition is_jpeg (output_format : string) : bool :=
  bool_decide (output_format = "JPEG" \/ output_format = "JPG").

Definition save_params (output_format : string) : gmap string pyval :=
  let params := ∅ in
  let params :=
    if is_jpeg output_format
    then <["optimize" := PBool true]> (<["quality" := PInt 85]> params)
    else params in
  if String.eqb output_format "PNG"
  then <["optimize" := PBool true]> params
  else params.

End Transcode.

(** ** The output key and content type *)

Section OutputKey.
Context `{Config}.

(** Lines 145 to 150. *)
Definition processed_subpath (key output_format : string) : string :=
  let filename := OsPath.basename key in
  let name_root := fst (OsPath.splitext filename) in
  let ext := PyStr.lower output_format in
  let key_dir := OsPath.dirname key in
  if PyStr.truthy key_dir
  then key_dir +:+ "/" +:+ name_root +:+ "." +:+ ext
  else name_root +:+ "." +:+ ext.

(** Line 151. *)
Definition output_key (key output_format : string) : string :=
  PyStr.rstrip "/" PROCESSED_PREFIX +:+ "/" +:+ processed_subpath key output_format.

End OutputKey.

(** Line 153. *)
Definition content_type (output_format : string)
           (input_content_type : option string) : string :=
  match CONTENT_TYPE_MAP !! output_format with
  | Some ct => ct
  | None =>
      match input_content_type with
      | Some ct => if PyStr.truthy ct then ct else "application/octet-stream"
      | None => "application/octet-stream"
      end
  end.

(** ** The handler *)

(** The value the handler returns. *)
Record http_response := {
  statusCode : Z;
  body : string
}.

Section Handler.
Context `{Config} `{Runtime} `{S3Client} `{Pillow}.

(** What the handler does to the world besides returning: the calls to the
    store, the read of the fetched body, and the decoder and encoder runs,
    in the order they happen. *)
Inductive effect : Type :=
| GetObject (Bucket : pyval) (Key : string)
| BodyRead
| ImageOpen (data : bytes)
| ImageSave (im : image) (format : string) (params : gmap string pyval)
| PutObject (Bucket : pyval) (Key : string) (Body : bytes)
            (ContentType : string) (Metadata : gmap string string).

(** A run of handler code: the effects performed, and either the value
    computed or the exception that escaped. *)
Definition run (A : Type) : Type := list effect * result A.

Definition ret {A} (a : A) : run A := ([], Ok a).

Definition pure {A} (r : result A) : run A := ([], r).

Definition call {A} (ev : effect) (r : result A) : run A := ([ev], r).

Definition bind {A B} (m : run A) (k : A -> run B) : run B :=
  match m with
  | (t, Ok a) => let '(t', r) := k a in ((t ++ t')%list, r)
  | (t, Raise e) => (t, Raise e)
  end.

(** [try: x = m / except Exception as e: return h e], followed by [k x]. *)
Definition try_except {A B} (m : run A) (h : exn -> B) (k : A -> run B) : run B :=
  match m with
  | (t, Ok a) => let '(t', r) := k a in ((t ++ t')%list, r)
  | (t, Raise e) => (t, Ok (h e))
  end.

Notation "'do*' x ':=' m 'in' k" := (bind m (fun x => k))
  (at level 10, x name, m at level 100, k at level 200).

Notation "'try*' x ':=' m 'except' e '=>' h 'in' k" :=
  (try_except m (fun e => h) (fun x => k))
  (at level 10, x name, e name, m at level 100, h at level 100, k at level 200).

(** Line 91: [content_length and content_length > MAX_INPUT_SIZE_BYTES];
    [Some n] when the guard holds for the reported length [n]. *)
Definition too_large (content_length : option Z) : option Z :=
  match content_length with
  | Some n =>
      if negb (n =? 0)%Z && (MAX_INPUT_SIZE_BYTES <? n)%Z then Some n else None
  | None => None
  end.

(** Lines 97 to 170: decode, transcode, encode and write, once the body
    has been read. *)
Definition process_body (bucket : pyval) (key : string)
           (response : get_object_output) (data : bytes) : run http_response :=
  let input_content_type := ContentType response in
  let original_metadata := default ∅ (Metadata response) in
  try* im := (do* im := call (ImageOpen data) (Image_open data) in
              pure (Image_load im))
    except e => {| statusCode := 415;
                   body := json_dumps ("File is not a valid image: " +:+ str_exn e) |} in
  let output_format := _determine_output_format (image_format im) im in
  try* im := pure (resize_stage im)
    except e => {| statusCode := 500;
                   body := json_dumps ("Failed to resize image: " +:+ str_exn e) |} in
  do* image_to_save :=
    pure (if is_jpeg output_format then _composite_for_jpeg im else Ok im) in
  let params := save_params output_format in
  try* encoded := call (ImageSave image_to_save output_format params)
                       (save image_to_save output_format params)
    except e => {| statusCode := 500;
                   body := json_dumps ("Failed to encode image: " +:+ str_exn e) |} in
  let out_key := output_key key output_format in
  let ctype := content_type output_format input_content_type in
  try* _ := call (PutObject bucket out_key encoded ctype original_metadata)
                 (put_object bucket out_key encoded ctype original_metadata)
    except e => {| statusCode := 500;
                   body := json_dumps ("Failed to write processed image: " +:+ str_exn e) |} in
  let msg := "Processed " +:+ key +:+ " and saved to " +:+ out_key in
  ret {| statusCode := 200; body := json_dumps msg |}.

(** Lines 90 to 96: the size guard and the read of the body. *)
Definition process_response (bucket : pyval) (key : string)
           (response : get_object_output) : run http_response :=
  let content_length := ContentLength response in
  match too_large content_length with
  | Some n =>
      let msg := "Object too large (" +:+ str_int n +:+ " bytes), skipping." in
      ret {| statusCode := 413; body := json_dumps msg |}
  | None =>
      do* data := call BodyRead (Body response) in
      process_body bucket key response data
  end.

Definition lambda_handler (event : pyval) : run http_response :=
  try* parsed := pure (parse_event event)
    except e => {| statusCode := 400;
                   body := json_dumps ("Bad event: " +:+ str_exn e) |} in
  let '(bucket, key) := parsed in
  if PyStr.startswith key PROCESSED_PREFIX then
    let msg := "Skipping " +:+ key +:+ " because it is under the processed prefix." in
    ret {| statusCode := 200; body := json_dumps msg |}
  else
  try* response := call (GetObject bucket key) (get_object bucket key)
    except e => {| statusCode := 500;
                   body := json_dumps ("Failed to get object: " +:+ str_exn e) |} in
  process_response bucket key response.

End Handler.

(** ** Orientation normalisation *)

Module Orientation.

(** The EXIF tag that stores the orientation, 0x0112. *)
Definition ORIENTATION : Z := 274.

Section Grid.
Context {A : Type}.

Definition flip_left_right (rows : list (list A)) : list (list A) :=
  map (@rev A) rows.

Definition flip_top_bottom (rows : list (list A)) : list (list A) :=
  rev rows.

Fixpoint transpose (rows : list (list A)) : list (list A) :=
  match rows with
  | [] => []
  | r :: rs =>
      match rs with
      | [] => map (fun x => [x]) r
      | _ => zip_with cons r (transpose rs)
      end
  end.

Definition rotate_180 (rows : list (list A)) : list (list A) :=
  rev (map (@rev A) rows).

(** Quarter turns, counterclockwise as Pillow counts them. *)
Definition rotate_90 (rows : list (list A)) : list (list A) :=
  rev (transpose rows).

Definition rotate_270 (rows : list (list A)) : list (list A) :=
  map (@rev A) (transpose rows).

Definition transverse (rows : list (list A)) : list (list A) :=
  rev (map (@rev A) (transpose rows)).

(** What the value stored under the orientation tag asks for. *)
Definition apply_orientation (tag : option Z) (rows : list (list A))
  : list (list A) :=
  match tag with
  | Some 2%Z => flip_left_right rows
  | Some 3%Z => rotate_180 rows
  | Some 4%Z => flip_top_bottom rows
  | Some 5%Z => transpose rows
  | Some 6%Z => rotate_270 rows
  | Some 7%Z => transverse rows
  | Some 8%Z => rotate_90 rows
  | _ => rows
  end.

(** Modelled from the spec: [ImageOps.exif_transpose] is Pillow's, its
    code is not part of the repository.  An image is its EXIF entries and
    its pixel rows; the rows are brought into the orientation the stored
    tag asks for, and the tag is stripped from the entries. *)
Definition normalize_orientation (im : gmap Z Z * list (list A))
  : gmap Z Z * list (list A) :=
  let '(exif, rows) := im in
  (delete ORIENTATION exif, apply_orientation (exif !! ORIENTATION) rows).

End Grid.

End Orientation.

(** ** A reference instance of the collaborators

    Small executable stand-ins for Pillow, the store and the runtime, to run
    the handler on concrete events.  The theorems about the handler hold for
    every instance of the interfaces; these are the ones they are tried on. *)

Module Ref.

Definition pixel : Type := Z * Z * Z * Z.

Record raster := {
  r_format : option string;
  r_mode : string;
  r_info : list string;
  r_exif : gmap Z Z;
  r_rows : list (list pixel)
}.

Definition r_size (im : raster) : Z * Z :=
  (Z.of_nat (length (hd [] (r_rows im))), Z.of_nat (length (r_rows im))).

Definition byte_val (b : Byte.byte) : Z := Z.of_N (Byte.to_N b).

Definition byte_of (z : Z) : Byte.byte :=
  default Byte.x00 (Byte.of_N (Z.to_N (z mod 256))).

(** The pixel stream is run-length encoded: a count and the four bytes of
    the pixel it repeats. *)
Fixpoint read_pixels (data : bytes) : list pixel :=
  match data with
  | n :: r :: g :: b :: a :: rest =>
      (replicate (Z.to_nat (byte_val n))
                 (byte_val r, byte_val g, byte_val b, byte_val a)
       ++ read_pixels rest)%list
  | _ => []
  end.

Fixpoint runs (row : list pixel) : list (Z * pixel) :=
  match row with
  | [] => []
  | p :: row' =>
      match runs row' with
      | (n, q) :: rs =>
          if bool_decide (p = q) && (n <? 255)%Z then ((n + 1)%Z, q) :: rs
          else (1%Z, p) :: (n, q) :: rs
      | [] => [(1%Z, p)]
      end
  end.

Fixpoint chunk {A} (w n : nat) (l : list A) : list (list A) :=
  match n with
  | O => []
  | S n' => take w l :: chunk w n' (drop w l)
  end.

Definition format_of_code (c : Z) : option string :=
  match c with
  | 1%Z => Some "JPEG" | 2%Z => Some "PNG" | 3%Z => Some "GIF"
  | 4%Z => Some "WEBP" | 5%Z => Some "BMP" | _ => None
  end.

Definition mode_of_code (c : Z) : option (string * list string) :=
  match c with
  | 0%Z => Some ("L", []) | 1%Z => Some ("RGB", []) | 2%Z => Some ("RGBA", [])
  | 3%Z => Some ("P", []) | 4%Z => Some ("P", ["transparency"])
  | 5%Z => Some ("LA", []) | _ => None
  end.

(** A five-byte header (format, mode, orientation, width, height), then
    the runs of pixels, row after row. *)
Definition ref_open (data : bytes) : result raster :=
  match data with
  | f :: m :: o :: w :: h :: rest =>
      match format_of_code (byte_val f), mode_of_code (byte_val m) with
      | Some fmt, Some (mode, info) =>
          let w := Z.to_nat (byte_val w) in
          let h := Z.to_nat (byte_val h) in
          if (length (read_pixels rest) =? w * h)%nat then
            Ok {| r_format := Some fmt; r_mode := mode; r_info := info;
                  r_exif :=
                    if (byte_val o =? 0)%Z then ∅
                    else {[ Orientation.ORIENTATION := byte_val o ]};
                  r_rows := chunk w h (read_pixels rest) |}
          else Raise (LibraryError "image file is truncated")
      | _, _ => Raise (LibraryError "cannot identify image file")
      end
  | _ => Raise (LibraryError "cannot identify image file")
  end.

Definition ref_new (mode : string) (size : Z * Z) (color : Z * Z * Z)
  : result raster :=
  let '(r, g, b) := color in
  Ok {| r_format := None; r_mode := mode; r_info := []; r_exif := ∅;
        r_rows := replicate (Z.to_nat (snd size))
                    (replicate (Z.to_nat (fst size)) (r, g, b, 255%Z)) |}.

Definition ref_exif_transpose (im : raster) : result raster :=
  let '(exif, rows) :=
    Orientation.normalize_orientation (r_exif im, r_rows im) in
  Ok {| r_format := None; r_mode := r_mode im; r_info := r_info im;
        r_exif := exif; r_rows := rows |}.

Definition known_mode (m : string) : bool :=
  bool_decide (m ∈ ["L"; "LA"; "P"; "RGB"; "RGBA"]).

Definition opaque (p : pixel) : pixel :=
  let '(r, g, b, _) := p in (r, g, b, 255%Z).

Definition ref_convert (im : raster) (mode : string) : result raster :=
  if known_mode mode then
    Ok {| r_format := None; r_mode := mode;
          r_info := filter (fun k => k ≠ "transparency") (r_info im);
          r_exif := r_exif im;
          r_rows := if PyStr.contains "A" mode then r_rows im
                    else map (map opaque) (r_rows im) |}
  else Raise (ValueError "conversion not supported").

(** Nearest-pixel sampling stands in for the resampling filter. *)
Definition ref_resize (im : raster) (size : Z * Z) (filter : Z) : result raster :=
  let '(w0, h0) := r_size im in
  let '(w, h) := size in
  let sample (y x : nat) : pixel :=
    nth (Z.to_nat (Z.of_nat x * w0 / w))
        (nth (Z.to_nat (Z.of_nat y * h0 / h)) (r_rows im) [])
        (0, 0, 0, 0)%Z in
  Ok {| r_format := None; r_mode := r_mode im; r_info := r_info im;
        r_exif := r_exif im;
        r_rows := map (fun y => map (sample y) (seq 0 (Z.to_nat w)))
                      (seq 0 (Z.to_nat h)) |}.

Definition band (pick : pixel -> Z) (im : raster) : raster :=
  {| r_format := None; r_mode := "L"; r_info := []; r_exif := ∅;
     r_rows := map (map (fun p => let v := pick p in (v, v, v, 255%Z)))
                   (r_rows im) |}.

Definition ref_split (im : raster) : result (list raster) :=
  let red := fun p : pixel => p.1.1.1 in
  let green := fun p : pixel => p.1.1.2 in
  let blue := fun p : pixel => p.1.2 in
  let alpha := fun p : pixel => p.2 in
  Ok (if String.eqb (r_mode im) "RGBA" then map (fun f => band f im) [red; green; blue; alpha]
      else if String.eqb (r_mode im) "RGB" then map (fun f => band f im) [red; green; blue]
      else if String.eqb (r_mode im) "LA" then map (fun f => band f im) [red; alpha]
      else [band red im]).

(** Pillow's eight-bit blend: [a] over [b] with coverage [m] of 255. *)
Definition blend8 (m b a : Z) : Z :=
  let tmp := (a * m + b * (255 - m) + 128)%Z in
  Z.shiftr (Z.shiftr tmp 8 + tmp) 8.

Definition paste_pixel (bg src mask : pixel) : pixel :=
  let '(br, bgr, bb, ba) := bg in
  let '(sr, sg, sb, _) := src in
  let m := mask.1.1.1 in
  (blend8 m br sr, blend8 m bgr sg, blend8 m bb sb, ba).

Definition ref_paste (background src mask : raster) : result raster :=
  if bool_decide (r_size background = r_size src ∧ r_size src = r_size mask) then
    Ok {| r_format := r_format background; r_mode := r_mode background;
          r_info := r_info background;
          r_exif := r_exif background;
          r_rows := zip_with (fun rb sm => zip_with (fun b sm' => paste_pixel b sm'.1 sm'.2)
                                                    rb (zip sm.1 sm.2))
                             (r_rows background)
                             (zip (r_rows src) (r_rows mask)) |}
  else Raise (ValueError "images do not match").

Definition code_of_format (fmt : string) : option Z :=
  if String.eqb fmt "JPEG" then Some 1%Z
  else if String.eqb fmt "PNG" then Some 2%Z
  else if String.eqb fmt "GIF" then Some 3%Z
  else if String.eqb fmt "WEBP" then Some 4%Z
  else if String.eqb fmt "BMP" then Some 5%Z
  else None.

Definition code_of_mode (im : raster) : Z :=
  if String.eqb (r_mode im) "L" then 0%Z
  else if String.eqb (r_mode im) "RGB" then 1%Z
  else if String.eqb (r_mode im) "RGBA" then 2%Z
  else if String.eqb (r_mode im) "LA" then 5%Z
  else if bool_decide ("transparency" ∈ r_info im) then 4%Z
  else 3%Z.

(** The encoder registry is keyed by the upper-cased format name, and the
    JPEG encoder refuses the modes that carry alpha or a palette. *)
Definition ref_save (im : raster) (format : string)
           (params : gmap string pyval) : result bytes :=
  match code_of_format (PyStr.upper format) with
  | None => Raise (KeyError (PStr (PyStr.upper format)))
  | Some c =>
      if (c =? 1)%Z && negb (bool_decide (r_mode im ∈ ["L"; "RGB"])) then
        Raise (LibraryError ("cannot write mode " +:+ r_mode im +:+ " as JPEG"))
      else
        Ok (map byte_of [c; code_of_mode im; 0%Z; fst (r_size im); snd (r_size im)]
            ++ flat_map (fun run : Z * pixel =>
                           let '(n, (r, g, b, a)) := run in
                           map byte_of [n; r; g; b; a])
                        (flat_map runs (r_rows im)))%list
  end.

Definition pillow : Pillow := {|
  image := raster;
  Image_open := ref_open;
  Image_load := Ok;
  Image_new := ref_new;
  image_format := r_format;
  image_mode := r_mode;
  image_size := r_size;
  image_info_has := fun im k => bool_decide (k ∈ r_info im);
  exif_transpose := ref_exif_transpose;
  convert := ref_convert;
  resize := ref_resize;
  split := ref_split;
  paste := ref_paste;
  save := ref_save
|}.

End Ref.

Module RefWorld.

Definition hex_val (c : ascii) : option nat :=
  let n := nat_of_ascii c in
  if (48 <=? n)%nat && (n <=? 57)%nat then Some (n - 48)%nat
  else if (65 <=? n)%nat && (n <=? 70)%nat then Some (n - 55)%nat
  else if (97 <=? n)%nat && (n <=? 102)%nat then Some (n - 87)%nat
  else None.

Fixpoint plus_to_space (s : string) : string :=
  match s with
  | EmptyString => EmptyString
  | String c s' =>
      String (if Ascii.eqb c "+" then " "%char else c) (plus_to_space s')
  end.

(** Percent-decoding of the escapes that stand for ASCII characters. *)
Fixpoint unquote (s : string) : string :=
  match s with
  | EmptyString => EmptyString
  | String c s' =>
      match s' with
      | String a (String b rest) =>
          match (if Ascii.eqb c "%" then hex_val a else None), hex_val b with
          | Some x, Some y => String (ascii_of_nat (16 * x + y)) (unquote rest)
          | _, _ => String c (unquote s')
          end
      | _ => String c (unquote s')
      end
  end.

Definition quote_char : ascii := ascii_of_nat 34.
Definition backslash : ascii := ascii_of_nat 92.

Fixpoint json_escape (s : string) : string :=
  match s with
  | EmptyString => EmptyString
  | String c s' =>
      if Ascii.eqb c quote_char || Ascii.eqb c backslash
      then String backslash (String c (json_escape s'))
      else String c (json_escape s')
  end.

(** [type(v).__name__]. *)
Definition type_name (v : pyval) : string :=
  match v with
  | PNone => "NoneType"
  | PBool _ => "bool"
  | PInt _ => "int"
  | PStr _ => "str"
  | PList _ => "list"
  | PDict _ => "dict"
  end.

Definition repr (v : pyval) : string :=
  match v with
  | PStr s => "'" +:+ s +:+ "'"
  | PInt n => str_int n
  | _ => "..."
  end.

Definition runtime : Runtime := {|
  unquote_plus_str := fun s => unquote (plus_to_space s);
  json_dumps := fun s =>
    String quote_char (json_escape s) +:+ String quote_char EmptyString;
  str_exn := fun e =>
    match e with
    | KeyError k => repr k
    | IndexError kind => kind +:+ " index out of range"
    | TypeError (PStr _) _ => "string indices must be integers, not 'str'"
    | TypeError (PList _) _ => "list indices must be integers or slices, not str"
    | TypeError obj _ => "'" +:+ type_name obj +:+ "' object is not subscriptable"
    | AttributeError obj name =>
        "'" +:+ type_name obj +:+ "' object has no attribute '" +:+ name +:+ "'"
    | ValueError msg => msg
    | LibraryError msg => msg
    end
|}.

(** One bucket holding [objects]; a write is refused when [writable] is
    off. *)
Definition s3 (bucket : string) (objects : gmap string get_object_output)
           (writable : bool) : S3Client := {|
  get_object := fun b k =>
    match b with
    | PStr b' =>
        if String.eqb b' bucket then
          match objects !! k with
          | Some o => Ok o
          | None => Raise (LibraryError "NoSuchKey")
          end
        else Raise (LibraryError "NoSuchBucket")
    | _ => Raise (LibraryError "ParamValidationError")
    end;
  put_object := fun b k data ct md =>
    match b with
    | PStr b' =>
        if String.eqb b' bucket && writable then Ok tt
        else Raise (LibraryError "AccessDenied")
    | _ => Raise (LibraryError "ParamValidationError")
    end
|}.

Definition config : Config := {|
  PROCESSED_PREFIX := "processed/";
  MAX_INPUT_SIZE_BYTES := 50 * 1024 * 1024
|}.

(** The event S3 sends for one object. *)
Definition s3_event (bucket key : string) : pyval :=
  PDict [("Records",
          PList [PDict [("s3",
                         PDict [("bucket", PDict [("name", PStr bucket)]);
                                ("object", PDict [("key", PStr key)])])]])].

Definition file (header : list Z) (pixels : list Z) : bytes :=
  map Ref.byte_of (header ++ pixels)%list.

(** A 1x1 GIF whose only palette entry is the transparent one. *)
Definition transparent_gif : bytes := file [3; 4; 0; 1; 1]%Z [1; 10; 20; 30; 0]%Z.

(** A 2x1 PNG in RGBA, stored rotated (orientation 6). *)
Definition rgba_png : bytes :=
  file [2; 2; 6; 2; 1]%Z [1; 255; 0; 0; 255; 1; 0; 0; 255; 128]%Z.

(** A 1x1 BMP in RGB. *)
Definition rgb_bmp : bytes := file [5; 1; 0; 1; 1]%Z [1; 1; 2; 3; 255]%Z.

Definition object (data : result bytes) (len : option Z)
           (meta : gmap string string) : get_object_output :=
  {| ContentLength := len; ContentType := None; Metadata := Some meta;
     Body := data |}.

Definition sample_metadata : gmap string string :=
  {[ "sensor" := "sentinel-2"; "tile" := "T32" ]}.

Definition objects : gmap string get_object_output :=
  list_to_map
    [("photos/in.png", object (Ok rgba_png) (Some 15%Z) sample_metadata);
     ("maps/tile.gif", object (Ok transparent_gif) (Some 10%Z) ∅);
     ("raw/a.bmp", object (Ok rgb_bmp) None sample_metadata);
     ("raw/empty.bmp", object (Ok rgb_bmp) (Some 0%Z) sample_metadata);
     ("raw/huge.bmp", object (Ok rgb_bmp) (Some (50 * 1024 * 1024 + 1)%Z) ∅);
     ("raw/broken.bmp",
      object (Raise (LibraryError "Connection broken: IncompleteRead")) (Some 10%Z) ∅)].

Definition bucket_name : string := "imagery".

Definition handler (event : pyval) :=
  @lambda_handler config runtime (s3 bucket_name objects true) Ref.pillow event.

(** A 1x1 image in RGB. *)
Definition rgb_dot : Ref.raster :=
  {| Ref.r_format := None; Ref.r_mode := "RGB"; Ref.r_info := [];
     Ref.r_exif := ∅; Ref.r_rows := [[(1, 2, 3, 255)%Z]] |}.

(** [transparent_gif], decoded. *)
Definition decoded_gif : Ref.raster :=
  {| Ref.r_format := Some "GIF"; Ref.r_mode := "P";
     Ref.r_info := ["transparency"]; Ref.r_exif := ∅;
     Ref.r_rows := [[(10, 20, 30, 0)%Z]] |}.

Definition is_ok {A} (r : result A) : bool :=
  match r with Ok _ => true | Raise _ => false end.

(** The top left pixel of an image. *)
Definition top_left (im : Ref.raster) : option Ref.pixel :=
  Ref.r_rows im !! 0%nat ≫= (.!! 0%nat).

(** The status code a run ended with, when it returned. *)
Definition status {E} (r : list E * result http_response) : option Z :=
  match snd r with Ok resp => Some (statusCode resp) | Raise _ => None end.

Definition effect_name `{Pillow} (ev : effect) : string :=
  match ev with
  | GetObject _ _ => "get_object"
  | BodyRead => "read"
  | ImageOpen _ => "open"
  | ImageSave _ _ _ => "save"
  | PutObject _ _ _ _ _ => "put_object"
  end.

(** The key, content type and metadata of the write of a run, and the
    format, size and mode of what it encoded. *)
Definition written `{Pillow} (t : list effect)
  : list (string * string * gmap string string) :=
  flat_map (fun ev => match ev with
                      | PutObject _ k _ ct md => [(k, ct, md)]
                      | _ => []
                      end) t.

Definition encoded `{Pillow} (t : list effect)
  : list (string * (Z * Z) * string) :=
  flat_map (fun ev => match ev with
                      | ImageSave im fmt _ => [(fmt, image_size im, image_mode im)]
                      | _ => []
                      end) t.

(** A configuration whose ceiling is below zero. *)
Definition negative_ceiling : Config := {|
  PROCESSED_PREFIX := "processed/";
  MAX_INPUT_SIZE_BYTES := -1
|}.

End RefWorld.

(** More objects and settings to run the handler on. *)

Module RefCases.
Import RefWorld.

(** A 1x1 BMP in RGBA, and two bytes that are no image. *)
Definition alpha_bmp : bytes := file [5; 2; 0; 1; 1]%Z [1; 9; 8; 7; 128]%Z.
Definition garbage : bytes := file [9; 9]%Z [].

Definition decoded_alpha_bmp : Ref.raster :=
  {| Ref.r_format := Some "BMP"; Ref.r_mode := "RGBA"; Ref.r_info := [];
     Ref.r_exif := ∅; Ref.r_rows := [[(9, 8, 7, 128)%Z]] |}.

Definition objects : gmap string get_object_output :=
  list_to_map
    [("raw/alpha.bmp", object (Ok alpha_bmp) None ∅);
     ("raw/garbage.bin", object (Ok garbage) (Some 2%Z) ∅);
     ("processed/c.png", object (Ok rgba_png) (Some 15%Z) ∅)].

Definition world : S3Client := s3 bucket_name objects true.

Definition handler (event : pyval) :=
  @lambda_handler config runtime world Ref.pillow event.

Definition empty_prefix : Config := {|
  PROCESSED_PREFIX := EmptyString;
  MAX_INPUT_SIZE_BYTES := 50 * 1024 * 1024
|}.

Definition doubled_prefix : Config := {|
  PROCESSED_PREFIX := "processed//";
  MAX_INPUT_SIZE_BYTES := 50 * 1024 * 1024
|}.

(** The first record of an S3 event for [key]. *)
Definition s3_record (bucket : string) (key : pyval) : pyval :=
  PDict [("s3", PDict [("bucket", PDict [("name", PStr bucket)]);
                       ("object", PDict [("key", key)])])].

End RefCases.

(** ** What Pillow promises about colour modes *)

(** The documented effect of each operation on the mode of the image it
    answers: [convert] answers an image in the mode asked for, [Image.new]
    likewise, and [resize], [paste] and [exif_transpose] keep the mode. *)
Class PillowLaws (P : Pillow) : Prop := {
  convert_mode : forall im m im', convert im m = Ok im' -> image_mode im' = m;
  new_mode : forall m size c im, Image_new m size c = Ok im -> image_mode im = m;
  resize_mode : forall im size f im',
      resize im size f = Ok im' -> image_mode im' = image_mode im;
  paste_mode : forall bg src mask im,
      paste bg src mask = Ok im -> image_mode im = image_mode bg;
  exif_transpose_mode : forall im im',
      exif_transpose im = Ok im' -> image_mode im' = image_mode im
}.

(** What Pillow promises about sizes: [resize] and [Image.new] answer an
    image of the size asked for, [convert] and [paste] keep the size. *)
Class PillowSizeLaws (P : Pillow) : Prop := {
  resize_size : forall im w h f im',
      (0 < w)%Z -> (0 < h)%Z ->
      resize im (w, h) f = Ok im' -> image_size im' = (w, h);
  new_size : forall m w h c im,
      (0 < w)%Z -> (0 < h)%Z ->
      Image_new m (w, h) c = Ok im -> image_size im = (w, h);
  convert_size : forall im m im',
      convert im m = Ok im' -> image_size im' = image_size im;
  paste_size : forall bg src mask im,
      paste bg src mask = Ok im -> image_size im = image_size bg
}.

(** ** The specification's wording of two decisions *)

Module Spec.

(** An image whose colour mode carries an alpha channel, as the
    specification counts it: a mode with an alpha band (RGBA, LA), or a
    palette mode with a transparency entry. *)
Definition carries_alpha `{Pillow} (im : image) : bool :=
  bool_decide (image_mode im = "RGBA" \/ image_mode im = "LA")
  || (String.eqb (image_mode im) "P" && image_info_has im "transparency").

(** Pillow's modes without an alpha band, the palette mode (which may have
    a transparency entry) and LAB apart. *)
Definition alpha_free_modes : list string :=
  ["1"; "L"; "RGB"; "CMYK"; "YCbCr"; "HSV"; "I"; "F"].

(** Format selection as the specification words it: a recognised hint is
    used with JPG normalised to JPEG, else PNG for an image whose colour
    mode carries an alpha channel, else JPEG. *)
Definition selectOutputFormat `{Pillow} (sourceFormatHint : option string)
           (im : image) : string :=
  let hint := PyStr.upper (default EmptyString sourceFormatHint) in
  if bool_decide (hint = "JPEG" \/ hint = "JPG") then "JPEG"
  else if bool_decide (hint = "PNG" \/ hint = "WEBP") then hint
  else if carries_alpha im then "PNG"
  else "JPEG".

(** The directory portion of a key as it is written: everything up to and
    including its last separator. *)
Definition directory_portion (key : string) : string :=
  PyStr.slice_to (PyStr.rfind "/" key + 1) key.

(** Key mapping as the specification words it: the directory portion
    unchanged, the extension of the file name replaced, the whole under the
    prefix with one separator. *)
Definition mapKey (inputKey processedPrefix outputFormat : string) : string :=
  PyStr.rstrip "/" processedPrefix +:+ "/" +:+ directory_portion inputKey
    +:+ fst (OsPath.splitext (OsPath.basename inputKey))
    +:+ "." +:+ PyStr.lower outputFormat.

End Spec.

(** A key whose directory portion is empty, or a directory name that does
    not end in a separator followed by the one separator before the file
    name. *)
Definition plain_directory (key : string) : bool :=
  let d := Spec.directory_portion key in
  negb (PyStr.truthy d)
  || (PyStr.truthy (PyStr.rstrip "/" d)
      && String.eqb d (PyStr.rstrip "/" d +:+ "/")).

(** [s] consists of the character [c] only. *)
Definition only (c : ascii) (s : string) : bool :=
  String.eqb s (PyStr.repeat c (String.length s)).

(** A store answer with another reported length. *)
Definition with_content_length (len : option Z) (response : get_object_output)
  : get_object_output :=
  {| ContentLength := len; ContentType := ContentType response;
     Metadata := Metadata response; Body := Body response |}.

(** * Properties *)

(** ** Strings and paths *)

Section StringFacts.
Import PyStr.

Lemma app_nil_l (t : string) : EmptyString +:+ t = t.
Proof. reflexivity. Qed.

Lemma app_cons (a : ascii) (s t : string) :
  String a s +:+ t = String a (s +:+ t).
Proof. reflexivity. Qed.

Lemma app_assoc' (s t u : string) : (s +:+ t) +:+ u = s +:+ (t +:+ u).
Proof.
  induction s as [|a s IH]; [reflexivity|].
  rewrite !app_cons. by rewrite IH.
Qed.

Lemma startswith_app (p rest : string) : startswith (p +:+ rest) p = true.
Proof.
  unfold startswith. induction p as [|a p IH].
  - by destruct rest.
  - rewrite app_cons. simpl. destruct (ascii_dec a a); [exact IH | done].
Qed.

Lemma startswith_inv (s p : string) :
  startswith s p = true -> exists rest, s = p +:+ rest.
Proof.
  unfold startswith. revert s. induction p as [|a p IH]; intros s Hs.
  - by exists s.
  - destruct s as [|b s]; simpl in Hs; [done|].
    destruct (ascii_dec a b) as [->|]; [|done].
    destruct (IH _ Hs) as [rest ->]. by exists rest.
Qed.

Lemma contains_app (c : ascii) (s t : string) :
  contains c (s +:+ t) = contains c s || contains c t.
Proof.
  induction s as [|a s IH]; [reflexivity|].
  rewrite app_cons. simpl. rewrite IH. by rewrite orb_assoc.
Qed.

Lemma rfind_bounds (c : ascii) (s : string) :
  (-1 <= rfind c s < Z.of_nat (String.length s))%Z.
Proof.
  induction s as [|a s IH]; simpl; [lia|].
  destruct (0 <=? rfind c s)%Z eqn:E; [lia|].
  destruct (Ascii.eqb a c); lia.
Qed.

Lemma rfind_absent (c : ascii) (s : string) :
  contains c s = false -> rfind c s = (-1)%Z.
Proof.
  induction s as [|a s IH]; simpl; [done|].
  intros [Ha Hs]%orb_false_iff. rewrite (IH Hs). simpl. by rewrite Ha.
Qed.

(** The last [c] of [d c f] is the one written, when [f] has none. *)
Lemma rfind_last (c : ascii) (d f : string) :
  contains c f = false ->
  rfind c (d +:+ String c f) = Z.of_nat (String.length d).
Proof.
  intros Hf. induction d as [|a d IH].
  - rewrite app_nil_l. simpl. rewrite (rfind_absent _ _ Hf). simpl.
    by rewrite Ascii.eqb_refl.
  - rewrite app_cons. simpl rfind. rewrite IH.
    destruct (0 <=? Z.of_nat (String.length d))%Z eqn:E; simpl String.length; lia.
Qed.

Lemma take_app (s t : string) : take (String.length s) (s +:+ t) = s.
Proof.
  induction s as [|a s IH].
  - by destruct t.
  - rewrite app_cons. simpl. by rewrite IH.
Qed.

Lemma drop_app (s t : string) : drop (String.length s) (s +:+ t) = t.
Proof.
  induction s as [|a s IH].
  - by destruct t.
  - rewrite app_cons. simpl. exact IH.
Qed.

Lemma length_app (s t : string) :
  String.length (s +:+ t) = (String.length s + String.length t)%nat.
Proof.
  induction s as [|a s IH]; [reflexivity|].
  rewrite app_cons. simpl. by rewrite IH.
Qed.

Lemma rstrip_snoc (c : ascii) (s : string) :
  rstrip c (s +:+ String c EmptyString) = rstrip c s.
Proof.
  induction s as [|a s IH].
  - rewrite app_nil_l. simpl. by rewrite Ascii.eqb_refl.
  - rewrite app_cons. simpl. by rewrite IH.
Qed.

Lemma rstrip_repeat (c : ascii) (n : nat) : rstrip c (repeat c n) = EmptyString.
Proof.
  induction n as [|n IH]; simpl; [done|].
  rewrite IH. by rewrite Ascii.eqb_refl.
Qed.


Lemma truthy_app_r (s : string) (c : ascii) (t : string) :
  truthy (s +:+ String c t) = true.
Proof. by destruct s. Qed.

End StringFacts.

Section PathFacts.
Import PyStr OsPath.

Lemma basename_no_sep (f : string) :
  contains sep f = false -> basename f = f.
Proof.
  intros Hf. unfold basename. by rewrite (rfind_absent _ _ Hf).
Qed.

Lemma directory_portion_no_sep (f : string) :
  contains sep f = false -> Spec.directory_portion f = EmptyString.
Proof.
  intros Hf. unfold Spec.directory_portion.
  change "/"%char with sep. rewrite (rfind_absent _ _ Hf). by destruct f.
Qed.

Lemma split_index (d f : string) :
  contains sep f = false ->
  Z.to_nat (rfind sep (d +:+ String sep f) + 1)
  = String.length (d +:+ String sep EmptyString).
Proof.
  intros Hf. rewrite (rfind_last _ _ _ Hf), length_app. simpl. lia.
Qed.

Lemma directory_portion_split (d f : string) :
  contains sep f = false ->
  Spec.directory_portion (d +:+ String sep f) = d +:+ String sep EmptyString.
Proof.
  intros Hf. unfold Spec.directory_portion, slice_to.
  change "/"%char with sep. rewrite (split_index _ _ Hf).
  replace (d +:+ String sep f) with ((d +:+ String sep EmptyString) +:+ f)
    by (by rewrite app_assoc').
  apply take_app.
Qed.

Lemma basename_split (d f : string) :
  contains sep f = false -> basename (d +:+ String sep f) = f.
Proof.
  intros Hf. unfold basename, slice_from. rewrite (split_index _ _ Hf).
  replace (d +:+ String sep f) with ((d +:+ String sep EmptyString) +:+ f)
    by (by rewrite app_assoc').
  apply drop_app.
Qed.

(** [dirname] in terms of the directory portion as written. *)
Lemma dirname_directory_portion (key : string) :
  dirname key =
    let head := Spec.directory_portion key in
    if truthy head && negb (only sep head) then rstrip sep head else head.
Proof. reflexivity. Qed.

Lemma plain_directory_dirname (key : string) :
  plain_directory key = true ->
  Spec.directory_portion key =
    if truthy (dirname key) then dirname key +:+ "/" else EmptyString.
Proof.
  unfold plain_directory. rewrite dirname_directory_portion.
  set (d := Spec.directory_portion key). cbv zeta.
  intros [Hd | [Hr Hd]%andb_true_iff]%orb_true_iff.
  - destruct d; [reflexivity | done].
  - apply String.eqb_eq in Hd.
    assert (only sep d = false) as Ho.
    { unfold only. apply String.eqb_neq. intros Heq.
      rewrite Heq, rstrip_repeat in Hr. done. }
    assert (truthy d = true) as Ht by (rewrite Hd; apply truthy_app_r).
    rewrite Ht, Ho. simpl. change sep with "/"%char. by rewrite Hr.
Qed.

Lemma plain_directory_split (d f : string) :
  contains sep f = false -> truthy d = true -> rstrip sep d = d ->
  plain_directory (d +:+ String sep f) = true.
Proof.
  intros Hf Ht Hd. unfold plain_directory.
  rewrite (directory_portion_split _ _ Hf). change "/"%char with sep.
  rewrite rstrip_snoc, Hd, Ht. simpl.
  rewrite String.eqb_refl. apply orb_true_r.
Qed.

(** The loop leaves through its [return] as soon as one of the characters
    it walks over is not a dot. *)
Lemma splitext_loop_returns (p : string) (dotIndex : Z) (n j : nat) (i : Z) :
  (j < n)%nat ->
  slice (i + Z.of_nat j) (i + Z.of_nat j + 1) p <> String extsep EmptyString ->
  splitext_loop p dotIndex n i = Some (slice_to dotIndex p, slice_from dotIndex p).
Proof.
  revert j i. induction n as [|n IH]; intros j i Hj Hne; [lia|].
  simpl. destruct (String.eqb_spec (slice i (i + 1) p) (String extsep EmptyString))
    as [Heq|Hneq]; simpl; [|done].
  destruct j as [|j].
  - exfalso. apply Hne. by rewrite Z.add_0_r.
  - apply (IH j); [lia|].
    replace (i + 1 + Z.of_nat j)%Z with (i + Z.of_nat (S j))%Z by lia. done.
Qed.

Lemma only_false_index (c : ascii) (s : string) :
  only c s = false ->
  exists j, (j < String.length s)%nat /\
            take 1 (drop j s) <> String c EmptyString.
Proof.
  unfold only. induction s as [|a s IH]; simpl; intros Hs; [done|].
  destruct (Ascii.eqb_spec a c) as [->|Hne].
  - destruct (IH Hs) as (j & Hj & Hd).
    exists (S j). split; [lia | done].
  - exists 0%nat. split; [lia|]. simpl. destruct s; congruence.
Qed.

Lemma take_drop_app (n k : nat) (s t : string) :
  (k + n <= String.length s)%nat ->
  take n (drop k (s +:+ t)) = take n (drop k s).
Proof.
  revert n k. induction s as [|a s IH]; intros n k Hk; simpl in Hk.
  - assert (n = 0%nat) as -> by lia. by destruct (drop k _), (drop k _).
  - destruct k as [|k]; rewrite app_cons; simpl.
    + destruct n as [|n]; [done|]. simpl. f_equal.
      apply (IH n 0%nat). lia.
    + apply IH. lia.
Qed.

(** [splitext] cuts a file name at its last dot, when something other than
    dots stands before it. *)
Lemma splitext_last_dot (r e : string) :
  contains sep r = false -> contains sep e = false ->
  contains extsep e = false -> only extsep r = false ->
  splitext (r +:+ String extsep e) = (r, String extsep e).
Proof.
  intros Hr He Hde Hor. unfold splitext.
  rewrite (rfind_last _ _ _ Hde).
  rewrite rfind_absent by (rewrite contains_app; simpl; by rewrite Hr, He).
  destruct (Z.ltb_spec (-1) (Z.of_nat (String.length r))) as [_|?]; [|lia].
  destruct (only_false_index _ _ Hor) as (j & Hj & Hd).
  rewrite (splitext_loop_returns _ _ _ j); [| lia |].
  - unfold slice_to, slice_from. rewrite Nat2Z.id.
    by rewrite take_app, drop_app.
  - unfold slice.
    replace (Z.to_nat (-1 + 1 + Z.of_nat j + 1 - (-1 + 1 + Z.of_nat j))) with 1%nat by lia.
    replace (Z.to_nat (-1 + 1 + Z.of_nat j)) with j by lia.
    rewrite take_drop_app by lia. done.
Qed.

End PathFacts.

Example basename_nested : OsPath.basename "a/b/c.bmp" = "c.bmp".
Proof. reflexivity. Qed.

Example dirname_nested : OsPath.dirname "a/b/c.bmp" = "a/b".
Proof. reflexivity. Qed.

Example dirname_root : OsPath.dirname "/c.bmp" = "/".
Proof. reflexivity. Qed.

Example dirname_double_separator : OsPath.dirname "a//c.bmp" = "a".
Proof. reflexivity. Qed.

Example splitext_last_extension : OsPath.splitext "c.tar.gz" = ("c.tar", ".gz").
Proof. reflexivity. Qed.

Example splitext_leading_dot : OsPath.splitext ".bashrc" = (".bashrc", "").
Proof. reflexivity. Qed.

Example upper_mixed_case : PyStr.upper "WebP" = "WEBP".
Proof. reflexivity. Qed.

Example rstrip_prefix : PyStr.rstrip "/" "processed//" = "processed".
Proof. reflexivity. Qed.

(** ** Format selection *)

Lemma content_type_map_keys (fmt : string) :
  is_Some (CONTENT_TYPE_MAP !! fmt) <-> fmt ∈ ["JPEG"; "JPG"; "PNG"; "WEBP"].
Proof.
  unfold CONTENT_TYPE_MAP. simpl list_to_map.
  rewrite !lookup_insert_is_Some, lookup_empty, !elem_of_cons, elem_of_nil.
  split.
  - intros [->|[_ [->|[_ [->|[_ [->|[_ []%is_Some_None]]]]]]]]; auto.
  - intros [->|[->|[->|[->|[]]]]].
    + by left.
    + right; split; [done | by left].
    + right; split; [done|]. right; split; [done | by left].
    + right; split; [done|]. right; split; [done|]. right; split; [done | by left].
Qed.

Lemma truthy_upper (s : string) : PyStr.truthy (PyStr.upper s) = PyStr.truthy s.
Proof. by destruct s. Qed.

Section FormatSelection.
Context `{Pillow}.

Lemma determine_output_format_hint (h : string) (im : image) :
  PyStr.upper h ∈ ["JPEG"; "JPG"; "PNG"; "WEBP"] ->
  _determine_output_format (Some h) im = PyStr.upper h.
Proof.
  intros Hin. unfold _determine_output_format.
  assert (PyStr.truthy h = true) as ->.
  { rewrite <- truthy_upper.
    revert Hin. rewrite !elem_of_cons, elem_of_nil.
    by intros [->|[->|[->|[->|[]]]]]. }
  rewrite bool_decide_eq_true_2; [done|].
  by apply content_type_map_keys.
Qed.

Lemma determine_output_format_fallback (original_format : option string)
      (im : image) :
  (forall h, original_format = Some h ->
             PyStr.upper h ∉ ["JPEG"; "JPG"; "PNG"; "WEBP"]) ->
  _determine_output_format original_format im
  = if PyStr.contains "A" (image_mode im) then "PNG" else "JPEG".
Proof.
  intros Hno. unfold _determine_output_format.
  destruct original_format as [h|]; [|done].
  destruct (PyStr.truthy h); [|done].
  rewrite bool_decide_eq_false_2; [done|].
  rewrite content_type_map_keys. by apply Hno.
Qed.

Lemma determine_output_format_range (original_format : option string)
      (im : image) :
  _determine_output_format original_format im ∈ ["JPEG"; "JPG"; "PNG"; "WEBP"].
Proof.
  destruct original_format as [h|].
  - destruct (decide (PyStr.upper h ∈ ["JPEG"; "JPG"; "PNG"; "WEBP"])) as [Hin|Hno].
    + by rewrite determine_output_format_hint.
    + rewrite determine_output_format_fallback.
      * destruct (PyStr.contains _ _); rewrite !elem_of_cons; tauto.
      * by intros ? [= <-].
  - rewrite determine_output_format_fallback by done.
    destruct (PyStr.contains _ _); rewrite !elem_of_cons; tauto.
Qed.

(** On the modes with an alpha band, and on the modes without one whose
    name has no letter A, the test of line 43 tells what the specification
    asks: whether the colour mode carries an alpha channel. *)
Lemma carries_alpha_by_name (im : image) :
  image_mode im = "RGBA" \/ image_mode im = "LA"
  \/ image_mode im ∈ Spec.alpha_free_modes
  \/ (image_mode im = "P" /\ image_info_has im "transparency" = false) ->
  Spec.carries_alpha im = PyStr.contains "A" (image_mode im).
Proof.
  unfold Spec.carries_alpha, Spec.alpha_free_modes.
  rewrite !elem_of_cons, elem_of_nil.
  intros [Hm|[Hm|[[Hm|[Hm|[Hm|[Hm|[Hm|[Hm|[Hm|[Hm|[]]]]]]]]]|[Hm Ht]]]];
    rewrite Hm, ?Ht; reflexivity.
Qed.

(** C1 (as amended): the rules of [_determine_output_format], in order.  A
    hint whose upper-cased name is a key of the content-type table (JPEG,
    JPG, PNG, WEBP) is answered upper-cased, JPG as JPG.  Otherwise an
    image whose mode has an alpha band (RGBA, LA) gives PNG, and an image
    whose mode carries no alpha (1, L, RGB, CMYK, YCbCr, HSV, I, F, or a
    palette without a transparency entry) gives JPEG.  The answer is always
    one of JPEG, JPG, PNG, WEBP, and it is what the specification's rule
    selects whenever the hint is not JPG and the image is one on which the
    letter A in the mode name tells whether the mode carries alpha. *)
Theorem determine_output_format_rules (original_format : option string)
        (im : image) :
  (forall h, original_format = Some h ->
             PyStr.upper h ∈ ["JPEG"; "JPG"; "PNG"; "WEBP"] ->
             _determine_output_format original_format im = PyStr.upper h)
  /\ ((forall h, original_format = Some h ->
                 PyStr.upper h ∉ ["JPEG"; "JPG"; "PNG"; "WEBP"]) ->
      (image_mode im = "RGBA" \/ image_mode im = "LA" ->
       _determine_output_format original_format im = "PNG")
      /\ (image_mode im ∈ Spec.alpha_free_modes
          \/ (image_mode im = "P" /\ image_info_has im "transparency" = false) ->
          _determine_output_format original_format im = "JPEG"))
  /\ _determine_output_format original_format im ∈ ["JPEG"; "JPG"; "PNG"; "WEBP"]
  /\ ((forall h, original_format = Some h -> PyStr.upper h <> "JPG") ->
      Spec.carries_alpha im = PyStr.contains "A" (image_mode im) ->
      _determine_output_format original_format im
      = Spec.selectOutputFormat original_format im).
Proof.
  split; [|split; [|split]].
  - intros h -> Hin. by apply determine_output_format_hint.
  - intros Hno. rewrite (determine_output_format_fallback _ _ Hno). split.
    + intros Hm. rewrite <- (carries_alpha_by_name im) by tauto.
      unfold Spec.carries_alpha. by destruct Hm as [-> | ->].
    + intros Hm. rewrite <- (carries_alpha_by_name im) by tauto.
      unfold Spec.carries_alpha, Spec.alpha_free_modes in *.
      revert Hm. rewrite !elem_of_cons, elem_of_nil.
      intros [[Hm|[Hm|[Hm|[Hm|[Hm|[Hm|[Hm|[Hm|[]]]]]]]]]|[Hm Ht]];
        rewrite Hm, ?Ht; reflexivity.
  - apply determine_output_format_range.
  - intros Hjpg Hagree. unfold Spec.selectOutputFormat.
    destruct original_format as [h|].
    + specialize (Hjpg h eq_refl). simpl default.
      destruct (decide (PyStr.upper h ∈ ["JPEG"; "JPG"; "PNG"; "WEBP"])) as [Hin|Hno].
      * rewrite determine_output_format_hint by done.
        revert Hin Hjpg. rewrite !elem_of_cons, elem_of_nil.
        intros [->|[->|[->|[->|[]]]]] Hj; first [done | reflexivity].
      * rewrite determine_output_format_fallback by (by intros ? [= <-]).
        rewrite Hagree.
        rewrite !bool_decide_eq_false_2; [done| |];
          intros Hor; apply Hno; rewrite !elem_of_cons; tauto.
    + rewrite determine_output_format_fallback by done. rewrite Hagree.
      reflexivity.
Qed.

End FormatSelection.

Lemma determine_output_format_rules_witness :
  @_determine_output_format Ref.pillow (Some "webp") RefWorld.rgb_dot = "WEBP"
  /\ @_determine_output_format Ref.pillow (Some "GIF") RefWorld.rgb_dot = "JPEG"
  /\ @_determine_output_format Ref.pillow (Some "GIF") RefWorld.rgb_dot
     = @Spec.selectOutputFormat Ref.pillow (Some "GIF") RefWorld.rgb_dot.
Proof.
  destruct (@determine_output_format_rules Ref.pillow (Some "webp") RefWorld.rgb_dot)
    as (Hhint & _).
  destruct (@determine_output_format_rules Ref.pillow (Some "GIF") RefWorld.rgb_dot)
    as (_ & Hfall & _ & Hspec).
  split; [|split].
  - apply (Hhint "webp"); [reflexivity|].
    change (PyStr.upper "webp") with "WEBP". rewrite !elem_of_cons. tauto.
  - apply Hfall.
    + intros h [= <-]. change (PyStr.upper "GIF") with "GIF".
      rewrite !elem_of_cons, elem_of_nil. intros [?|[?|[?|[?|[]]]]]; discriminate.
    + left. unfold Spec.alpha_free_modes. change (@image_mode Ref.pillow RefWorld.rgb_dot) with "RGB".
      rewrite !elem_of_cons. tauto.
  - apply Hspec; [|reflexivity].
    intros h [= <-]. discriminate.
Defined.

(** C1 as stated fails on the hint JPG: it is answered as JPG, which is not
    one of JPEG, PNG, WEBP and not what the specification's rule selects. *)
Lemma determine_output_format_jpg_kept :
  @_determine_output_format Ref.pillow (Some "jpg") RefWorld.rgb_dot = "JPG"
  /\ @Spec.selectOutputFormat Ref.pillow (Some "jpg") RefWorld.rgb_dot = "JPEG"
  /\ @_determine_output_format Ref.pillow (Some "jpg") RefWorld.rgb_dot
       ∉ ["JPEG"; "PNG"; "WEBP"].
Proof.
  split; [reflexivity | split; [reflexivity|]].
  change (@_determine_output_format Ref.pillow (Some "jpg") RefWorld.rgb_dot) with "JPG".
  rewrite !elem_of_cons, elem_of_nil. intros [?|[?|[?|[]]]]; discriminate.
Qed.

(** Where the letter A is wrong about alpha, the two part: for the GIF with
    a transparent palette entry the handler selects JPEG and the
    specification's rule PNG.  The rules above say nothing of such images. *)
Lemma determine_output_format_palette_transparency :
  Spec.carries_alpha (H:=Ref.pillow) RefWorld.decoded_gif = true
  /\ PyStr.contains "A" (@image_mode Ref.pillow RefWorld.decoded_gif) = false
  /\ @_determine_output_format Ref.pillow (Some "GIF") RefWorld.decoded_gif = "JPEG"
  /\ @Spec.selectOutputFormat Ref.pillow (Some "GIF") RefWorld.decoded_gif = "PNG".
Proof. repeat split; reflexivity. Qed.

(** ** The output key *)

Section OutputKeyFacts.
Context `{Config}.
Import PyStr OsPath.

Lemma output_key_mapKey (key output_format : string) :
  plain_directory key = true ->
  output_key key output_format = Spec.mapKey key PROCESSED_PREFIX output_format.
Proof.
  intros Hp. unfold output_key, Spec.mapKey, processed_subpath.
  rewrite (plain_directory_dirname key Hp).
  destruct (truthy (dirname key)); [|reflexivity].
  by rewrite !app_assoc'.
Qed.

Lemma output_key_nested (d r e output_format : string) :
  truthy d = true -> rstrip sep d = d ->
  contains sep r = false -> contains sep e = false ->
  contains extsep e = false -> only extsep r = false ->
  output_key (d +:+ "/" +:+ r +:+ "." +:+ e) output_format
  = rstrip "/" PROCESSED_PREFIX +:+ "/" +:+ d +:+ "/" +:+ r +:+ "."
      +:+ lower output_format.
Proof.
  intros Hd Hs Hr He Hde Hor.
  assert (contains sep (r +:+ String extsep e) = false) as Hf.
  { rewrite contains_app. simpl. by rewrite Hr, He. }
  change (d +:+ "/" +:+ r +:+ "." +:+ e)
    with (d +:+ String sep (r +:+ String extsep e)).
  rewrite output_key_mapKey by (by apply plain_directory_split).
  unfold Spec.mapKey.
  rewrite (directory_portion_split _ _ Hf), (basename_split _ _ Hf).
  rewrite splitext_last_dot by done. simpl fst.
  by rewrite !app_assoc'.
Qed.

Lemma output_key_flat (r e output_format : string) :
  contains sep r = false -> contains sep e = false ->
  contains extsep e = false -> only extsep r = false ->
  output_key (r +:+ "." +:+ e) output_format
  = rstrip "/" PROCESSED_PREFIX +:+ "/" +:+ r +:+ "." +:+ lower output_format.
Proof.
  intros Hr He Hde Hor.
  assert (contains sep (r +:+ String extsep e) = false) as Hf.
  { rewrite contains_app. simpl. by rewrite Hr, He. }
  change (r +:+ "." +:+ e) with (r +:+ String extsep e).
  rewrite output_key_mapKey.
  - unfold Spec.mapKey.
    rewrite (directory_portion_no_sep _ Hf), (basename_no_sep _ Hf).
    by rewrite splitext_last_dot.
  - unfold plain_directory. by rewrite (directory_portion_no_sep _ Hf).
Qed.


End OutputKeyFacts.



(** ** Colour modes through the pipeline *)

Lemma ref_pillow_laws : PillowLaws Ref.pillow.
Proof.
  split; simpl.
  - intros im m im'. unfold Ref.ref_convert.
    destruct (Ref.known_mode m); [|done]. by intros [= <-].
  - intros m size [[r g] b] im. unfold Ref.ref_new. by intros [= <-].
  - intros im [w h] f im'. unfold Ref.ref_resize. simpl. by intros [= <-].
  - intros bg src mask im. unfold Ref.ref_paste.
    destruct (bool_decide _); [|done]. by intros [= <-].
  - intros im im'. unfold Ref.ref_exif_transpose. simpl. by intros [= <-].
Qed.

Section Modes.
Context `{PillowLaws}.

(** The test of line 115 decides between the two modes handed on. *)
Lemma normalize_mode_canonical (im im' : image) :
  normalize_mode im = Ok im' ->
  image_mode im' = if PyStr.contains "A" (image_mode im) then "RGBA" else "RGB".
Proof.
  unfold normalize_mode. destruct (PyStr.contains _ _); apply convert_mode.
Qed.

Lemma resize_stage_mode (im resized : image) :
  resize_stage im = Ok resized ->
  image_mode resized
  = if PyStr.contains "A" (image_mode im) then "RGBA" else "RGB".
Proof.
  unfold resize_stage, result_bind.
  destruct (exif_transpose im) as [im1|] eqn:E1; [|done].
  destruct (normalize_mode im1) as [im2|] eqn:E2; [|done].
  intros E3. rewrite (resize_mode _ _ _ _ E3), (normalize_mode_canonical _ _ E2).
  by rewrite (exif_transpose_mode _ _ E1).
Qed.

(** Whatever [_composite_for_jpeg] answers is in mode RGB. *)
Lemma composite_for_jpeg_mode (im out : image) :
  _composite_for_jpeg im = Ok out -> image_mode out = "RGB".
Proof.
  unfold _composite_for_jpeg, result_bind.
  destruct (_ || _).
  - destruct (Image_new _ _ _) as [bg|] eqn:Ebg; [|done].
    destruct (convert im "RGBA") as [src|]; [|done].
    destruct (alpha_band src) as [mask|]; [|done].
    intros Ep. rewrite (paste_mode _ _ _ _ Ep). by apply (new_mode _ _ _ _ Ebg).
  - apply convert_mode.
Qed.

(** An image in RGBA is pasted over a white background of its size, with
    its own alpha band as the mask. *)
Lemma composite_for_jpeg_rgba (im : image) :
  image_mode im = "RGBA" ->
  _composite_for_jpeg im =
    (let* background := Image_new "RGB" (image_size im) (255, 255, 255)%Z in
     let* src := convert im "RGBA" in
     let* mask := (let* rgba := convert im "RGBA" in alpha_band rgba) in
     paste background src mask).
Proof. intros Hm. unfold _composite_for_jpeg. by rewrite Hm. Qed.

(** C2, on a palette image with a transparency entry: line 115 looks for
    the letter A in the mode name, does not find it in P, and converts to
    RGB; the claim has RGBA. *)
Theorem normalize_mode_palette_transparency (im im' : image) :
  image_mode im = "P" -> image_info_has im "transparency" = true ->
  normalize_mode im = Ok im' ->
  normalize_mode im = convert im "RGB" /\ image_mode im' = "RGB".
Proof.
  intros Hm _ Hn. split.
  - unfold normalize_mode. by rewrite Hm.
  - rewrite (normalize_mode_canonical _ _ Hn). by rewrite Hm.
Qed.

(** C3, on a GIF with a transparent palette entry: the format chosen is
    JPEG, the image reaches the encode stage in RGB, and
    [_composite_for_jpeg] takes its plain conversion branch: nothing is
    pasted over white, although the source image had transparency. *)
Theorem jpeg_palette_transparency_not_composited (im resized : image) :
  image_format im = Some "GIF" ->
  image_mode im = "P" -> image_info_has im "transparency" = true ->
  resize_stage im = Ok resized ->
  _determine_output_format (image_format im) im = "JPEG"
  /\ image_mode resized = "RGB"
  /\ _composite_for_jpeg resized = convert resized "RGB".
Proof.
  intros Hf Hm _ Hr.
  assert (image_mode resized = "RGB") as Hmode.
  { rewrite (resize_stage_mode _ _ Hr). by rewrite Hm. }
  split; [|split; [done|]].
  - rewrite Hf. unfold _determine_output_format. simpl. by rewrite Hm.
  - unfold _composite_for_jpeg. by rewrite Hmode.
Qed.

End Modes.

Lemma decoded_gif_open :
  @Image_open Ref.pillow RefWorld.transparent_gif = Ok RefWorld.decoded_gif.
Proof. reflexivity. Qed.

Lemma normalize_mode_palette_transparency_witness :
  exists im', @normalize_mode Ref.pillow RefWorld.decoded_gif = Ok im'
              /\ @image_mode Ref.pillow im' = "RGB"
              /\ Ref.r_rows im' = [[(10, 20, 30, 255)%Z]].
Proof.
  eexists. split; [reflexivity|]. split; [|reflexivity].
  eapply (@normalize_mode_palette_transparency Ref.pillow ref_pillow_laws RefWorld.decoded_gif);
    reflexivity.
Defined.

Lemma jpeg_palette_transparency_not_composited_witness :
  match @resize_stage Ref.pillow RefWorld.decoded_gif with
  | Ok resized =>
      @_determine_output_format Ref.pillow (Some "GIF") RefWorld.decoded_gif = "JPEG"
      /\ @image_mode Ref.pillow resized = "RGB"
      /\ @_composite_for_jpeg Ref.pillow resized = @convert Ref.pillow resized "RGB"
  | Raise _ => False
  end.
Proof.
  assert (RefWorld.is_ok (@resize_stage Ref.pillow RefWorld.decoded_gif) = true)
    as Hok by (vm_compute; reflexivity).
  destruct (@resize_stage Ref.pillow RefWorld.decoded_gif) as [resized|] eqn:E;
    [|discriminate Hok].
  eapply (@jpeg_palette_transparency_not_composited Ref.pillow ref_pillow_laws
            RefWorld.decoded_gif resized); first [reflexivity | exact E].
Defined.

(** On the reference instance the transparent pixel of the GIF reaches the
    encoder with its palette colour, where a paste over white leaves white. *)
Lemma transparent_gif_pixel :
  match @resize_stage Ref.pillow RefWorld.decoded_gif with
  | Ok resized =>
      match @_composite_for_jpeg Ref.pillow resized with
      | Ok out => RefWorld.top_left out
      | Raise _ => None
      end
  | Raise _ => None
  end = Some (10, 20, 30, 255)%Z
  /\ Ref.paste_pixel (255, 255, 255, 255)%Z (10, 20, 30, 0)%Z (0, 0, 0, 255)%Z
     = (255, 255, 255, 255)%Z.
Proof. split; vm_compute; reflexivity. Qed.

(** ** The handler, stage by stage *)

Section HandlerFacts.
Context `{Config} `{Runtime} `{S3Client} `{Pillow}.

Lemma try_except_call {A B} (ev : effect) (r : result A) (h : exn -> B)
      (k : A -> run B) :
  try_except (call ev r) h k =
    match r with
    | Ok a => (ev :: fst (k a), snd (k a))
    | Raise e => ([ev], Ok (h e))
    end.
Proof. destruct r as [a|e]; simpl; [|done]. by destruct (k a). Qed.

Lemma try_except_pure {A B} (r : result A) (h : exn -> B) (k : A -> run B) :
  try_except (pure r) h k =
    match r with
    | Ok a => k a
    | Raise e => ([], Ok (h e))
    end.
Proof. destruct r as [a|e]; simpl; [|done]. by destruct (k a). Qed.

Lemma bind_call {A B} (ev : effect) (r : result A) (k : A -> run B) :
  bind (call ev r) k =
    match r with
    | Ok a => (ev :: fst (k a), snd (k a))
    | Raise e => ([ev], Raise e)
    end.
Proof. destruct r as [a|e]; simpl; [|done]. by destruct (k a). Qed.

Lemma bind_pure {A B} (r : result A) (k : A -> run B) :
  bind (pure r) k =
    match r with
    | Ok a => k a
    | Raise e => ([], Raise e)
    end.
Proof. destruct r as [a|e]; simpl; [|done]. by destruct (k a). Qed.

(** *** Event parsing, the recursion guard and the fetch *)

Lemma lambda_handler_bad_event (event : pyval) (e : exn) :
  parse_event event = Raise e ->
  lambda_handler event
  = ([], Ok {| statusCode := 400;
               body := json_dumps ("Bad event: " +:+ str_exn e) |}).
Proof. intros Hp. unfold lambda_handler. by rewrite try_except_pure, Hp. Qed.

Lemma lambda_handler_skip (event bucket : pyval) (key : string) :
  parse_event event = Ok (bucket, key) ->
  PyStr.startswith key PROCESSED_PREFIX = true ->
  lambda_handler event
  = ([], Ok {| statusCode := 200;
               body := json_dumps ("Skipping " +:+ key
                         +:+ " because it is under the processed prefix.") |}).
Proof.
  intros Hp Hs. unfold lambda_handler. by rewrite try_except_pure, Hp, Hs.
Qed.

Lemma lambda_handler_fetch_failed (event bucket : pyval) (key : string) (e : exn) :
  parse_event event = Ok (bucket, key) ->
  PyStr.startswith key PROCESSED_PREFIX = false ->
  get_object bucket key = Raise e ->
  lambda_handler event
  = ([GetObject bucket key],
     Ok {| statusCode := 500;
           body := json_dumps ("Failed to get object: " +:+ str_exn e) |}).
Proof.
  intros Hp Hs Hg. unfold lambda_handler.
  by rewrite try_except_pure, Hp, Hs, try_except_call, Hg.
Qed.

Lemma lambda_handler_fetched (event bucket : pyval) (key : string)
      (response : get_object_output) :
  parse_event event = Ok (bucket, key) ->
  PyStr.startswith key PROCESSED_PREFIX = false ->
  get_object bucket key = Ok response ->
  lambda_handler event
  = (GetObject bucket key :: fst (process_response bucket key response),
     snd (process_response bucket key response)).
Proof.
  intros Hp Hs Hg. unfold lambda_handler.
  by rewrite try_except_pure, Hp, Hs, try_except_call, Hg.
Qed.

(** *** The size guard *)

Lemma too_large_spec (content_length : option Z) (n : Z) :
  too_large content_length = Some n <->
  content_length = Some n /\ n <> 0%Z /\ (MAX_INPUT_SIZE_BYTES < n)%Z.
Proof.
  unfold too_large. split.
  - destruct content_length as [m|]; [|done].
    destruct (Z.eqb_spec m 0) as [|Hm]; [done|].
    destruct (Z.ltb_spec MAX_INPUT_SIZE_BYTES m) as [Hlt|]; [|done].
    simpl. by intros [= <-].
  - intros (-> & Hn & Hlt).
    destruct (Z.eqb_spec n 0) as [|_]; [done|].
    destruct (Z.ltb_spec MAX_INPUT_SIZE_BYTES n) as [_|]; [done | lia].
Qed.

Lemma too_large_none : too_large None = None.
Proof. reflexivity. Qed.

Lemma too_large_zero : too_large (Some 0%Z) = None.
Proof. reflexivity. Qed.

Lemma process_response_too_large (bucket : pyval) (key : string)
      (response : get_object_output) (n : Z) :
  too_large (ContentLength response) = Some n ->
  process_response bucket key response
  = ([], Ok {| statusCode := 413;
               body := json_dumps ("Object too large (" +:+ str_int n
                         +:+ " bytes), skipping.") |}).
Proof. intros Ht. unfold process_response. by rewrite Ht. Qed.

Lemma process_response_read_failed (bucket : pyval) (key : string)
      (response : get_object_output) (e : exn) :
  too_large (ContentLength response) = None ->
  Body response = Raise e ->
  process_response bucket key response = ([BodyRead], Raise e).
Proof.
  intros Ht Hb. unfold process_response. by rewrite Ht, bind_call, Hb.
Qed.

Lemma process_response_read (bucket : pyval) (key : string)
      (response : get_object_output) (data : bytes) :
  too_large (ContentLength response) = None ->
  Body response = Ok data ->
  process_response bucket key response
  = (BodyRead :: fst (process_body bucket key response data),
     snd (process_body bucket key response data)).
Proof.
  intros Ht Hb. unfold process_response. by rewrite Ht, bind_call, Hb.
Qed.

Lemma try_except_trace {A B} (m : run A) (h : exn -> B) (k : A -> run B) :
  exists rest, fst (try_except m h k) = (fst m ++ rest)%list.
Proof.
  destruct m as [t [a|e]]; simpl.
  - destruct (k a) as [t' r]. by exists t'.
  - exists []. by rewrite app_nil_r.
Qed.

(** The decoder is the first thing run on the bytes read. *)
Lemma process_body_opens (bucket : pyval) (key : string)
      (response : get_object_output) (data : bytes) :
  exists rest, fst (process_body bucket key response data) = ImageOpen data :: rest.
Proof.
  unfold process_body.
  match goal with
  | |- context [try_except ?m ?h ?k] =>
      destruct (try_except_trace m h k) as [rest ->]
  end.
  rewrite bind_call. destruct (Image_open data); simpl; by eexists.
Qed.

End HandlerFacts.

Section Outcomes.
Context `{Config} `{Runtime} `{S3Client} `{Pillow}.

(** Take the next stage of a run apart: its call either answers or
    raises. *)
Ltac stage :=
  match goal with
  | |- context [match ?x with Ok _ => _ | Raise _ => _ end] =>
      let E := fresh "E" in destruct x eqn:E; simpl
  end.

(** What a run of [process_body] that ends in status 200 has done. *)
Lemma process_body_success (bucket : pyval) (key : string)
      (response : get_object_output) (data : bytes)
      (t : list effect) (r : http_response) :
  process_body bucket key response data = (t, Ok r) ->
  statusCode r = 200%Z ->
  exists im output_format encoded,
    t = [ImageOpen data;
         ImageSave im output_format (save_params output_format);
         PutObject bucket (output_key key output_format) encoded
                   (content_type output_format (ContentType response))
                   (default ∅ (Metadata response))]
    /\ save im output_format (save_params output_format) = Ok encoded.
Proof.
  unfold process_body, try_except, bind, call, pure, ret.
  repeat stage; intros [= <- <-] Hs; try discriminate Hs.
  eexists _, _, _. split; [reflexivity | eassumption].
Qed.

Lemma process_body_status (bucket : pyval) (key : string)
      (response : get_object_output) (data : bytes)
      (t : list effect) (r : http_response) :
  process_body bucket key response data = (t, Ok r) ->
  statusCode r ∈ [200; 415; 500]%Z.
Proof.
  unfold process_body, try_except, bind, call, pure, ret.
  repeat stage; intros [= <- <-]; simpl; rewrite !elem_of_cons; tauto.
Qed.

(** An exception leaves [process_body] only from the compositing, which
    stands outside every [try]. *)
Lemma process_body_raises (bucket : pyval) (key : string)
      (response : get_object_output) (data : bytes)
      (t : list effect) (e : exn) :
  process_body bucket key response data = (t, Raise e) ->
  exists im, _composite_for_jpeg im = Raise e.
Proof.
  unfold process_body, try_except, bind, call, pure, ret.
  repeat stage; intros [= <- <-].
  match goal with
  | E : (if is_jpeg ?f then _ else _) = Raise _ |- _ =>
      destruct (is_jpeg f); [by eexists | discriminate E]
  end.
Qed.

(** Every write carries the metadata of the fetched object. *)
Lemma process_body_put_metadata (bucket : pyval) (key : string)
      (response : get_object_output) (data : bytes)
      (b : pyval) (k : string) (d : bytes) (ct : string)
      (md : gmap string string) :
  PutObject b k d ct md ∈ fst (process_body bucket key response data) ->
  md = default ∅ (Metadata response).
Proof.
  unfold process_body, try_except, bind, call, pure, ret.
  repeat stage; rewrite ?elem_of_cons, ?elem_of_nil;
    intros Hin; repeat destruct Hin as [Hin|Hin]; try done;
    by injection Hin.
Qed.

Lemma process_response_status (bucket : pyval) (key : string)
      (response : get_object_output) (t : list effect) (r : http_response) :
  process_response bucket key response = (t, Ok r) ->
  statusCode r ∈ [200; 413; 415; 500]%Z.
Proof.
  unfold process_response.
  destruct (too_large _) as [n|].
  - intros [= <- <-]. simpl. rewrite !elem_of_cons; tauto.
  - rewrite bind_call. destruct (Body response) as [data|]; [|done].
    destruct (process_body _ _ _ data) as [t' [r'|]] eqn:E; simpl; [|done].
    intros [= <- <-]. apply process_body_status in E.
    revert E. rewrite !elem_of_cons, !elem_of_nil. tauto.
Qed.

(** When the handler returns, it returns one of the five status codes. *)
Lemma lambda_handler_status (event : pyval) (t : list effect)
      (r : http_response) :
  lambda_handler event = (t, Ok r) ->
  statusCode r ∈ [200; 400; 413; 415; 500]%Z.
Proof.
  destruct (parse_event event) as [[bucket key]|e] eqn:Hp.
  - destruct (PyStr.startswith key PROCESSED_PREFIX) eqn:Hs.
    + rewrite (lambda_handler_skip _ _ _ Hp Hs). intros [= <- <-].
      simpl. rewrite !elem_of_cons; tauto.
    + destruct (get_object bucket key) as [response|e] eqn:Hg.
      * rewrite (lambda_handler_fetched _ _ _ _ Hp Hs Hg).
        destruct (process_response bucket key response) as [t' [r'|]] eqn:E;
          simpl; [|done].
        intros [= <- <-]. apply process_response_status in E.
        revert E. rewrite !elem_of_cons, !elem_of_nil. tauto.
      * rewrite (lambda_handler_fetch_failed _ _ _ _ Hp Hs Hg).
        intros [= <- <-]. simpl. rewrite !elem_of_cons; tauto.
  - rewrite (lambda_handler_bad_event _ _ Hp). intros [= <- <-].
    simpl. rewrite !elem_of_cons; tauto.
Qed.

End Outcomes.

(** ** What reaches the encoder, and what escapes the handler *)

Section Encoder.
Context `{Config} `{Runtime} `{S3Client} `{P : Pillow} `{!PillowLaws P}.

Ltac stage :=
  match goal with
  | |- context [match ?x with Ok _ => _ | Raise _ => _ end] =>
      let E := fresh "E" in destruct x eqn:E; simpl
  end.

Lemma process_body_save_mode (bucket : pyval) (key : string)
      (response : get_object_output) (data : bytes)
      (im : image) (output_format : string) (params : gmap string pyval) :
  ImageSave im output_format params ∈ fst (process_body bucket key response data) ->
  is_jpeg output_format = true ->
  image_mode im = "RGB".
Proof.
  unfold process_body, try_except, bind, call, pure, ret.
  repeat stage; rewrite ?elem_of_cons, ?elem_of_nil;
    intros Hin; repeat destruct Hin as [Hin|Hin]; try done;
    injection Hin as -> -> _; intros Hj;
    match goal with
    | E : (if is_jpeg ?f then _ else _) = Ok _ |- _ =>
        rewrite Hj in E; exact (composite_for_jpeg_mode _ _ E)
    end.
Qed.

(** The effects of a run of the handler: nothing, the fetch alone, the
    fetch and the read, or those two and the effects of [process_body]. *)
Lemma lambda_handler_effects (event : pyval) :
  fst (lambda_handler event) = []
  \/ exists bucket key,
       fst (lambda_handler event) = [GetObject bucket key]
       \/ fst (lambda_handler event) = [GetObject bucket key; BodyRead]
       \/ exists response data,
            fst (lambda_handler event)
            = GetObject bucket key :: BodyRead
                :: fst (process_body bucket key response data).
Proof.
  destruct (parse_event event) as [[bucket key]|e] eqn:Hp;
    [|left; by rewrite (lambda_handler_bad_event _ _ Hp)].
  destruct (PyStr.startswith key PROCESSED_PREFIX) eqn:Hs;
    [left; by rewrite (lambda_handler_skip _ _ _ Hp Hs)|].
  right. exists bucket, key.
  destruct (get_object bucket key) as [response|e] eqn:Hg;
    [|left; by rewrite (lambda_handler_fetch_failed _ _ _ _ Hp Hs Hg)].
  rewrite (lambda_handler_fetched _ _ _ _ Hp Hs Hg). unfold process_response.
  destruct (too_large _) as [n|]; [by left|].
  rewrite bind_call. destruct (Body response) as [data|]; simpl.
  - right. right. by exists response, data.
  - right. by left.
Qed.

(** Whatever the handler hands to the encoder under a JPEG format name is
    in mode RGB: no alpha channel reaches the JPEG encoder. *)
Lemma jpeg_encoder_input_rgb (event : pyval) (im : image)
      (output_format : string) (params : gmap string pyval) :
  ImageSave im output_format params ∈ fst (lambda_handler event) ->
  is_jpeg output_format = true ->
  image_mode im = "RGB".
Proof.
  destruct (lambda_handler_effects event)
    as [->|(bucket & key & [->|[->|(response & data & ->)]])];
    rewrite ?elem_of_cons, ?elem_of_nil.
  - done.
  - by intros [|].
  - by intros [|[|]].
  - intros [|[|Hin]] Hj; [done | done |].
    exact (process_body_save_mode _ _ _ _ _ _ _ Hin Hj).
Qed.

End Encoder.

Section Escapes.
Context `{Config} `{Runtime} `{S3Client} `{Pillow}.

(** An exception leaves the handler only from the two calls that stand
    outside every [try]: the read of the body and the compositing. *)
Lemma lambda_handler_raises (event : pyval) (t : list effect) (e : exn) :
  lambda_handler event = (t, Raise e) ->
  (exists bucket key response,
      get_object bucket key = Ok response /\ Body response = Raise e)
  \/ (exists im, _composite_for_jpeg im = Raise e).
Proof.
  destruct (parse_event event) as [[bucket key]|e'] eqn:Hp;
    [|by rewrite (lambda_handler_bad_event _ _ Hp)].
  destruct (PyStr.startswith key PROCESSED_PREFIX) eqn:Hs;
    [by rewrite (lambda_handler_skip _ _ _ Hp Hs)|].
  destruct (get_object bucket key) as [response|e'] eqn:Hg;
    [|by rewrite (lambda_handler_fetch_failed _ _ _ _ Hp Hs Hg)].
  rewrite (lambda_handler_fetched _ _ _ _ Hp Hs Hg). unfold process_response.
  destruct (too_large _) as [n|]; [done|].
  rewrite bind_call. destruct (Body response) as [data|e'] eqn:Hb; simpl.
  - destruct (process_body bucket key response data) as [t' r'] eqn:E. simpl.
    intros [= <- ->]. right. by apply process_body_raises in E.
  - intros [= <- ->]. left. by exists bucket, key, response.
Qed.

End Escapes.

(** ** The handler's claims *)

Section HandlerClaims.
Context `{Config} `{Runtime} `{S3Client} `{Pillow}.

(** C4: an event whose key starts with the processed prefix is answered
    with status 200 and the skip message, and the handler touches neither
    the store nor anything else: no fetch, no write. *)
Theorem skip_processed_prefix (event bucket : pyval) (rest : string) :
  parse_event event = Ok (bucket, PROCESSED_PREFIX +:+ rest) ->
  lambda_handler event
  = ([], Ok {| statusCode := 200;
               body := json_dumps ("Skipping " +:+ (PROCESSED_PREFIX +:+ rest)
                         +:+ " because it is under the processed prefix.") |}).
Proof.
  intros Hp. apply (lambda_handler_skip _ _ _ Hp). apply startswith_app.
Qed.

(** C5 (as amended): a fetched object whose reported length is not zero
    and exceeds the ceiling is answered with status 413 after the fetch
    alone: no read, no decode, no write.  That is every length above a
    ceiling that is not negative, the ceiling plus one among them.  When
    no length is reported the guard lets the object through and the bytes
    read go to the decoder. *)
Theorem size_ceiling (event bucket : pyval) (key : string)
        (response : get_object_output) :
  parse_event event = Ok (bucket, key) ->
  PyStr.startswith key PROCESSED_PREFIX = false ->
  get_object bucket key = Ok response ->
  (forall n, ContentLength response = Some n ->
             n <> 0%Z -> (MAX_INPUT_SIZE_BYTES < n)%Z ->
             lambda_handler event
             = ([GetObject bucket key],
                Ok {| statusCode := 413;
                      body := json_dumps ("Object too large (" +:+ str_int n
                                +:+ " bytes), skipping.") |}))
  /\ ((0 <= MAX_INPUT_SIZE_BYTES)%Z ->
      ContentLength response = Some (MAX_INPUT_SIZE_BYTES + 1)%Z ->
      exists msg,
        lambda_handler event
        = ([GetObject bucket key], Ok {| statusCode := 413; body := msg |}))
  /\ (ContentLength response = None ->
      too_large (ContentLength response) = None
      /\ forall data, Body response = Ok data ->
           exists rest,
             fst (lambda_handler event)
             = GetObject bucket key :: BodyRead :: ImageOpen data :: rest).
Proof.
  intros Hp Hs Hg.
  rewrite (lambda_handler_fetched _ _ _ _ Hp Hs Hg).
  assert (forall n, ContentLength response = Some n ->
                    n <> 0%Z -> (MAX_INPUT_SIZE_BYTES < n)%Z ->
                    process_response bucket key response
                    = ([], Ok {| statusCode := 413;
                                 body := json_dumps ("Object too large ("
                                           +:+ str_int n +:+ " bytes), skipping.") |}))
    as Hlarge.
  { intros n Hn Hz Hlt. apply process_response_too_large.
    by apply too_large_spec. }
  split; [|split].
  - intros n Hn Hz Hlt. by rewrite (Hlarge n Hn Hz Hlt).
  - intros Hmax Hn. eexists. rewrite (Hlarge _ Hn); [reflexivity | lia | lia].
  - intros Hn. rewrite Hn. split; [reflexivity|].
    intros data Hb.
    rewrite (process_response_read _ _ _ _ ltac:(by rewrite Hn) Hb). simpl.
    destruct (process_body_opens bucket key response data) as [rest ->].
    by exists rest.
Qed.

(** C7, where the read of the body fails: the exception leaves the
    handler, which has no [try] around [response['Body'].read()]. *)
Theorem body_read_failure_escapes (event bucket : pyval) (key : string)
        (response : get_object_output) (e : exn) :
  parse_event event = Ok (bucket, key) ->
  PyStr.startswith key PROCESSED_PREFIX = false ->
  get_object bucket key = Ok response ->
  too_large (ContentLength response) = None ->
  Body response = Raise e ->
  lambda_handler event = ([GetObject bucket key; BodyRead], Raise e).
Proof.
  intros Hp Hs Hg Ht Hb.
  rewrite (lambda_handler_fetched _ _ _ _ Hp Hs Hg).
  by rewrite (process_response_read_failed _ _ _ _ Ht Hb).
Qed.

(** C8: every write the handler issues carries the metadata mapping of
    the fetched object, and a run that processed an object (status 200,
    key outside the processed prefix) has issued exactly one write, its
    last effect, with that mapping: when the store answered the mapping
    [m], the write carries [m]. *)
Theorem metadata_passthrough (event bucket : pyval) (key : string)
        (response : get_object_output) :
  parse_event event = Ok (bucket, key) ->
  PyStr.startswith key PROCESSED_PREFIX = false ->
  get_object bucket key = Ok response ->
  (forall b k d ct md,
      PutObject b k d ct md ∈ fst (lambda_handler event) ->
      md = default ∅ (Metadata response))
  /\ (forall t r,
         lambda_handler event = (t, Ok r) -> statusCode r = 200%Z ->
         exists data im output_format encoded,
           t = [GetObject bucket key; BodyRead; ImageOpen data;
                ImageSave im output_format (save_params output_format);
                PutObject bucket (output_key key output_format) encoded
                          (content_type output_format (ContentType response))
                          (default ∅ (Metadata response))])
  /\ (forall m, Metadata response = Some m -> default ∅ (Metadata response) = m).
Proof.
  intros Hp Hs Hg.
  rewrite (lambda_handler_fetched _ _ _ _ Hp Hs Hg).
  unfold process_response.
  split; [|split].
  - intros b k d ct md. destruct (too_large _) as [n|].
    + simpl. rewrite elem_of_cons, elem_of_nil. by intros [|].
    + rewrite bind_call. destruct (Body response) as [data|]; simpl.
      * rewrite !elem_of_cons. intros [|[|Hin]]; [done | done |].
        by apply process_body_put_metadata in Hin.
      * rewrite !elem_of_cons, elem_of_nil. by intros [|[|]].
  - intros t r. destruct (too_large _) as [n|].
    + simpl. intros [= <- <-]. done.
    + rewrite bind_call. destruct (Body response) as [data|]; simpl; [|done].
      destruct (process_body bucket key response data) as [t' r'] eqn:E. simpl.
      intros [= <- ->] Hr.
      destruct (process_body_success _ _ _ _ _ _ E Hr)
        as (im & fmt & encoded & -> & _).
      by exists data, im, fmt, encoded.
  - by intros m ->.
Qed.

(** C10: a reported length of zero passes the guard exactly as a missing
    length does, whatever the ceiling: the run is the same, and the bytes
    read go to the decoder. *)
Theorem zero_length_bypasses_size_check (bucket : pyval) (key : string)
        (response : get_object_output) :
  too_large (Some 0%Z) = too_large None
  /\ process_response bucket key (with_content_length (Some 0%Z) response)
     = process_response bucket key (with_content_length None response)
  /\ forall data, Body response = Ok data ->
       exists rest,
         fst (process_response bucket key
                (with_content_length (Some 0%Z) response))
         = BodyRead :: ImageOpen data :: rest.
Proof.
  split; [reflexivity | split; [reflexivity|]].
  intros data Hb.
  rewrite (process_response_read _ _ _ data); [| reflexivity | exact Hb].
  simpl.
  destruct (process_body_opens bucket key
              (with_content_length (Some 0%Z) response) data) as [rest ->].
  by exists rest.
Qed.

End HandlerClaims.

(** *** The claims on the reference instance *)

Lemma skip_processed_prefix_witness :
  RefWorld.handler (RefWorld.s3_event "imagery" "processed/x.png")
  = ([], Ok {| statusCode := 200;
               body := @json_dumps RefWorld.runtime
                         "Skipping processed/x.png because it is under the processed prefix." |}).
Proof.
  exact (@skip_processed_prefix RefWorld.config RefWorld.runtime
           (RefWorld.s3 RefWorld.bucket_name RefWorld.objects true) Ref.pillow
           (RefWorld.s3_event "imagery" "processed/x.png") (PStr "imagery")
           "x.png" eq_refl).
Defined.

Lemma size_ceiling_witness :
  RefWorld.handler (RefWorld.s3_event "imagery" "raw/huge.bmp")
  = ([GetObject (PStr "imagery") "raw/huge.bmp"],
     Ok {| statusCode := 413;
           body := @json_dumps RefWorld.runtime
                     "Object too large (52428801 bytes), skipping." |})
  /\ exists rest,
       fst (RefWorld.handler (RefWorld.s3_event "imagery" "raw/a.bmp"))
       = GetObject (PStr "imagery") "raw/a.bmp" :: BodyRead
           :: ImageOpen RefWorld.rgb_bmp :: rest.
Proof.
  split.
  - destruct (@size_ceiling RefWorld.config RefWorld.runtime
                (RefWorld.s3 RefWorld.bucket_name RefWorld.objects true) Ref.pillow
                (RefWorld.s3_event "imagery" "raw/huge.bmp") (PStr "imagery")
                "raw/huge.bmp"
                (RefWorld.object (Ok RefWorld.rgb_bmp)
                                 (Some (50 * 1024 * 1024 + 1)%Z) ∅)
                eq_refl eq_refl eq_refl) as (Hlarge & _).
    apply (Hlarge (50 * 1024 * 1024 + 1)%Z); [reflexivity | discriminate | reflexivity].
  - destruct (@size_ceiling RefWorld.config RefWorld.runtime
                (RefWorld.s3 RefWorld.bucket_name RefWorld.objects true) Ref.pillow
                (RefWorld.s3_event "imagery" "raw/a.bmp") (PStr "imagery")
                "raw/a.bmp"
                (RefWorld.object (Ok RefWorld.rgb_bmp) None RefWorld.sample_metadata)
                eq_refl eq_refl eq_refl) as (_ & _ & Hnone).
    destruct (Hnone eq_refl) as [_ Hdecode].
    exact (Hdecode RefWorld.rgb_bmp eq_refl).
Defined.

(** C5 as stated fails for a length of zero under a ceiling below zero: the
    length exceeds the ceiling, and the object is decoded and written. *)
Lemma size_ceiling_zero_length_passes :
  let run :=
    @lambda_handler RefWorld.negative_ceiling RefWorld.runtime
      (RefWorld.s3 RefWorld.bucket_name RefWorld.objects true) Ref.pillow
      (RefWorld.s3_event "imagery" "raw/empty.bmp") in
  (ContentLength <$> RefWorld.objects !! "raw/empty.bmp") = Some (Some 0%Z)
  /\ (@MAX_INPUT_SIZE_BYTES RefWorld.negative_ceiling < 0)%Z
  /\ RefWorld.status run = Some 200%Z
  /\ map RefWorld.effect_name (fst run)
     = ["get_object"; "read"; "open"; "save"; "put_object"].
Proof. repeat split; vm_compute; reflexivity. Qed.

Lemma body_read_failure_escapes_witness :
  RefWorld.handler (RefWorld.s3_event "imagery" "raw/broken.bmp")
  = ([GetObject (PStr "imagery") "raw/broken.bmp"; BodyRead],
     Raise (LibraryError "Connection broken: IncompleteRead")).
Proof.
  exact (@body_read_failure_escapes RefWorld.config RefWorld.runtime
           (RefWorld.s3 RefWorld.bucket_name RefWorld.objects true) Ref.pillow
           (RefWorld.s3_event "imagery" "raw/broken.bmp") (PStr "imagery")
           "raw/broken.bmp"
           (RefWorld.object (Raise (LibraryError "Connection broken: IncompleteRead"))
                            (Some 10%Z) ∅)
           (LibraryError "Connection broken: IncompleteRead")
           eq_refl eq_refl eq_refl eq_refl eq_refl).
Defined.

Lemma metadata_passthrough_witness :
  exists data im output_format encoded,
    fst (RefWorld.handler (RefWorld.s3_event "imagery" "photos/in.png"))
    = [GetObject (PStr "imagery") "photos/in.png"; BodyRead; ImageOpen data;
       ImageSave im output_format (save_params output_format);
       PutObject (PStr "imagery")
                 (@output_key RefWorld.config "photos/in.png" output_format)
                 encoded (content_type output_format None)
                 RefWorld.sample_metadata].
Proof.
  destruct (@metadata_passthrough RefWorld.config RefWorld.runtime
              (RefWorld.s3 RefWorld.bucket_name RefWorld.objects true) Ref.pillow
              (RefWorld.s3_event "imagery" "photos/in.png") (PStr "imagery")
              "photos/in.png"
              (RefWorld.object (Ok RefWorld.rgba_png) (Some 15%Z)
                               RefWorld.sample_metadata)
              eq_refl eq_refl eq_refl) as (_ & Hsuccess & _).
  assert (RefWorld.status
            (RefWorld.handler (RefWorld.s3_event "imagery" "photos/in.png"))
          = Some 200%Z) as Hstatus by (vm_compute; reflexivity).
  unfold RefWorld.status in Hstatus.
  destruct (RefWorld.handler (RefWorld.s3_event "imagery" "photos/in.png"))
    as [t [r|e]] eqn:E; [|discriminate Hstatus].
  injection Hstatus as Hr.
  exact (Hsuccess t r E Hr).
Defined.

Lemma zero_length_bypasses_size_check_witness :
  exists rest,
    fst (@process_response RefWorld.negative_ceiling RefWorld.runtime
           (RefWorld.s3 RefWorld.bucket_name RefWorld.objects true) Ref.pillow
           (PStr "imagery") "raw/empty.bmp"
           (with_content_length (Some 0%Z)
              (RefWorld.object (Ok RefWorld.rgb_bmp) (Some 0%Z)
                               RefWorld.sample_metadata)))
    = BodyRead :: ImageOpen RefWorld.rgb_bmp :: rest.
Proof.
  destruct (@zero_length_bypasses_size_check RefWorld.negative_ceiling
              RefWorld.runtime
              (RefWorld.s3 RefWorld.bucket_name RefWorld.objects true) Ref.pillow
              (PStr "imagery") "raw/empty.bmp"
              (RefWorld.object (Ok RefWorld.rgb_bmp) (Some 0%Z)
                               RefWorld.sample_metadata))
    as (_ & _ & Hdecode).
  exact (Hdecode RefWorld.rgb_bmp eq_refl).
Defined.

(** The end-to-end scenario: an RGBA PNG under [photos/] is written as a
    256x256 RGBA PNG under the processed prefix, with its metadata. *)
Example end_to_end_png :
  let run := RefWorld.handler (RefWorld.s3_event "imagery" "photos/in.png") in
  RefWorld.status run = Some 200%Z
  /\ RefWorld.encoded (fst run) = [("PNG", (256, 256)%Z, "RGBA")]
  /\ RefWorld.written (fst run)
     = [("processed/photos/in.png", "image/png", RefWorld.sample_metadata)].
Proof. repeat split; vm_compute; reflexivity. Qed.

(** A key that arrives percent-encoded is decoded before it is looked up. *)
Example encoded_key_is_decoded :
  @parse_event RefWorld.runtime (RefWorld.s3_event "imagery" "raw%2Fa+b.bmp")
  = Ok (PStr "imagery", "raw/a b.bmp").
Proof. reflexivity. Qed.

(** ** Orientation *)

Section OrientationFacts.
Context {A : Type}.
Import Orientation.

(** C9: normalising the orientation strips the stored tag, so a second
    normalisation has nothing to apply and leaves the pixel rows, and the
    image, as the first one made them. *)
Theorem normalize_orientation_idempotent (im : gmap Z Z * list (list A)) :
  fst (normalize_orientation im) !! ORIENTATION = None
  /\ snd (normalize_orientation (normalize_orientation im))
     = snd (normalize_orientation im)
  /\ normalize_orientation (normalize_orientation im) = normalize_orientation im.
Proof.
  destruct im as [exif rows]. unfold normalize_orientation. simpl.
  rewrite lookup_delete_eq, delete_delete_eq. done.
Qed.

End OrientationFacts.

Example rotate_stored_quarter_turn :
  Orientation.normalize_orientation
    ({[ Orientation.ORIENTATION := 6%Z; 271%Z := 42%Z ]}, [[1; 2; 3]; [4; 5; 6]])
  = ({[ 271%Z := 42%Z ]}, [[4; 1]; [5; 2]; [6; 3]]).
Proof. by vm_compute. Qed.

Example mirror_stored_flip :
  Orientation.normalize_orientation
    ({[ Orientation.ORIENTATION := 2%Z ]}, [[1; 2; 3]; [4; 5; 6]])
  = (∅, [[3; 2; 1]; [6; 5; 4]]).
Proof. by vm_compute. Qed.

(** The reference [exif_transpose] is that normalisation, and answers the
    same image when run on its own answer. *)
Lemma ref_exif_transpose_twice (im once : Ref.raster) :
  Ref.ref_exif_transpose im = Ok once ->
  exists twice, Ref.ref_exif_transpose once = Ok twice
                /\ Ref.r_rows twice = Ref.r_rows once
                /\ Ref.r_exif twice !! Orientation.ORIENTATION = None.
Proof.
  unfold Ref.ref_exif_transpose. simpl. intros [= <-]. simpl.
  eexists. split; [reflexivity|]. simpl.
  rewrite !lookup_delete_eq. by split.
Qed.

(** * More of the handler *)

(** ** The handler, case by case *)

Section Unfolded.
Context `{Config} `{Runtime} `{S3Client} `{Pillow}.

(** [process_body] with its [try] blocks written as the cases they are. *)
Lemma process_body_unfold (bucket : pyval) (key : string)
      (response : get_object_output) (data : bytes) :
  process_body bucket key response data =
    match (let* im := Image_open data in Image_load im) with
    | Raise e =>
        ([ImageOpen data],
         Ok {| statusCode := 415;
               body := json_dumps ("File is not a valid image: " +:+ str_exn e) |})
    | Ok im =>
        let output_format := _determine_output_format (image_format im) im in
        match resize_stage im with
        | Raise e =>
            ([ImageOpen data],
             Ok {| statusCode := 500;
                   body := json_dumps ("Failed to resize image: " +:+ str_exn e) |})
        | Ok resized =>
            match (if is_jpeg output_format then _composite_for_jpeg resized
                   else Ok resized) with
            | Raise e => ([ImageOpen data], Raise e)
            | Ok image_to_save =>
                let saving :=
                  ImageSave image_to_save output_format (save_params output_format) in
                match save image_to_save output_format (save_params output_format) with
                | Raise e =>
                    ([ImageOpen data; saving],
                     Ok {| statusCode := 500;
                           body := json_dumps ("Failed to encode image: " +:+ str_exn e) |})
                | Ok encoded =>
                    let writing :=
                      PutObject bucket (output_key key output_format) encoded
                                (content_type output_format (ContentType response))
                                (default ∅ (Metadata response)) in
                    match put_object bucket (output_key key output_format) encoded
                                     (content_type output_format (ContentType response))
                                     (default ∅ (Metadata response)) with
                    | Raise e =>
                        ([ImageOpen data; saving; writing],
                         Ok {| statusCode := 500;
                               body := json_dumps ("Failed to write processed image: "
                                                   +:+ str_exn e) |})
                    | Ok _ =>
                        ([ImageOpen data; saving; writing],
                         Ok {| statusCode := 200;
                               body := json_dumps ("Processed " +:+ key +:+ " and saved to "
                                         +:+ output_key key output_format) |})
                    end
                end
            end
        end
    end.
Proof.
  unfold process_body, try_except, bind, call, pure, ret, result_bind.
  destruct (Image_open data) as [im0|]; simpl; [|done].
  destruct (Image_load im0) as [im|]; simpl; [|done].
  destruct (resize_stage im) as [resized|]; simpl; [|done].
  destruct (if is_jpeg _ then _ else _) as [image_to_save|]; simpl; [|done].
  destruct (save _ _ _) as [encoded|]; simpl; [|done].
  by destruct (put_object _ _ _ _ _).
Qed.

(** The same for the handler down to the read of the body. *)
Lemma lambda_handler_unfold (event : pyval) :
  lambda_handler event =
    match parse_event event with
    | Raise e =>
        ([], Ok {| statusCode := 400;
                   body := json_dumps ("Bad event: " +:+ str_exn e) |})
    | Ok (bucket, key) =>
        if PyStr.startswith key PROCESSED_PREFIX then
          ([], Ok {| statusCode := 200;
                     body := json_dumps ("Skipping " +:+ key
                               +:+ " because it is under the processed prefix.") |})
        else
          match get_object bucket key with
          | Raise e =>
              ([GetObject bucket key],
               Ok {| statusCode := 500;
                     body := json_dumps ("Failed to get object: " +:+ str_exn e) |})
          | Ok response =>
              match too_large (ContentLength response) with
              | Some n =>
                  ([GetObject bucket key],
                   Ok {| statusCode := 413;
                         body := json_dumps ("Object too large (" +:+ str_int n
                                   +:+ " bytes), skipping.") |})
              | None =>
                  match Body response with
                  | Raise e => ([GetObject bucket key; BodyRead], Raise e)
                  | Ok data =>
                      (GetObject bucket key :: BodyRead
                         :: fst (process_body bucket key response data),
                       snd (process_body bucket key response data))
                  end
              end
          end
    end.
Proof.
  destruct (parse_event event) as [[bucket key]|e] eqn:Hp;
    [|exact (lambda_handler_bad_event _ _ Hp)].
  destruct (PyStr.startswith key PROCESSED_PREFIX) eqn:Hs;
    [exact (lambda_handler_skip _ _ _ Hp Hs)|].
  destruct (get_object bucket key) as [response|e] eqn:Hg;
    [|exact (lambda_handler_fetch_failed _ _ _ _ Hp Hs Hg)].
  rewrite (lambda_handler_fetched _ _ _ _ Hp Hs Hg). unfold process_response.
  destruct (too_large _) as [n|]; [done|].
  rewrite bind_call. by destruct (Body response).
Qed.

End Unfolded.

(** ** The event *)

Section EventFacts.
Context `{Config} `{Runtime} `{S3Client} `{Pillow}.

(** X1: only the first record of an event counts.  Two events whose
    [Records] lists start with the same record are handled alike, whatever
    follows in the lists and whatever else the events hold. *)
Theorem first_record_only (d d' : list (string * pyval)) (record : pyval)
        (others others' : list pyval) :
  dict_lookup d "Records" = Some (PList (record :: others)) ->
  dict_lookup d' "Records" = Some (PList (record :: others')) ->
  lambda_handler (PDict d) = lambda_handler (PDict d').
Proof.
  intros Hd Hd'. rewrite !lambda_handler_unfold.
  unfold parse_event, _safe_get_record. simpl. by rewrite Hd, Hd'.
Qed.

(** X2: whatever goes wrong in [event['Records'][0]] (no such key, an empty
    list, a value that cannot be subscripted), the handler answers 400 with
    the one message of [_safe_get_record] and touches nothing. *)
Theorem missing_record_message (event : pyval) (e : exn) :
  (let* records := getitem event "Records" in getitem0 records) = Raise e ->
  lambda_handler event
  = ([], Ok {| statusCode := 400;
               body := json_dumps ("Bad event: " +:+ str_exn
                           (ValueError "Invalid event structure: expected event['Records'][0]")) |}).
Proof.
  intros He. rewrite lambda_handler_unfold.
  unfold parse_event, _safe_get_record. by rewrite He.
Qed.

(** X3: an event whose first record names a bucket and a string key is
    parsed to that bucket and the decoded key, and unless the key is under
    the processed prefix the first thing the handler does is fetch that key
    from that bucket. *)
Theorem fetch_follows_event (event record s3 b bucket object : pyval)
        (raw_key : string) :
  _safe_get_record event = Ok record ->
  getitem record "s3" = Ok s3 ->
  getitem s3 "bucket" = Ok b -> getitem b "name" = Ok bucket ->
  getitem s3 "object" = Ok object -> getitem object "key" = Ok (PStr raw_key) ->
  parse_event event = Ok (bucket, unquote_plus_str raw_key)
  /\ (PyStr.startswith (unquote_plus_str raw_key) PROCESSED_PREFIX = false ->
      exists rest,
        fst (lambda_handler event)
        = GetObject bucket (unquote_plus_str raw_key) :: rest).
Proof.
  intros Hr Hs Hb Hn Ho Hk.
  assert (parse_event event = Ok (bucket, unquote_plus_str raw_key)) as Hp.
  { unfold parse_event. rewrite Hr. simpl. rewrite Hs. simpl.
    rewrite Hb. simpl. rewrite Hn. simpl. rewrite Ho. simpl. by rewrite Hk. }
  split; [done|]. intros Hout.
  rewrite lambda_handler_unfold, Hp, Hout.
  destruct (get_object _ _) as [response|]; [|by eexists].
  destruct (too_large _); [by eexists|].
  destruct (Body response); by eexists.
Qed.

(** X4: a key that is not a string is refused with status 400 before the
    store is touched: [unquote_plus] fails on it inside the first [try],
    and the body carries the text of that failure, which names the key's
    type and the missing [replace]. *)
Theorem non_string_key_rejected (event record s3 b bucket object k : pyval) :
  _safe_get_record event = Ok record ->
  getitem record "s3" = Ok s3 ->
  getitem s3 "bucket" = Ok b -> getitem b "name" = Ok bucket ->
  getitem s3 "object" = Ok object -> getitem object "key" = Ok k ->
  (forall s, k <> PStr s) ->
  lambda_handler event
  = ([], Ok {| statusCode := 400;
               body := json_dumps ("Bad event: "
                         +:+ str_exn (AttributeError k "replace")) |}).
Proof.
  intros Hr Hs Hb Hn Ho Hk Hnot.
  rewrite lambda_handler_unfold. unfold parse_event.
  rewrite Hr. simpl. rewrite Hs. simpl. rewrite Hb. simpl. rewrite Hn. simpl.
  rewrite Ho. simpl. rewrite Hk. simpl.
  destruct k; try done. by destruct (Hnot s).
Qed.

End EventFacts.

(** ** What each answer of the handler tells *)

(** Take a finished run apart, stage by stage. *)
Ltac cases H :=
  rewrite lambda_handler_unfold in H;
  repeat match type of H with
    | context [process_body _ _ _ _] =>
        rewrite process_body_unfold in H; cbv zeta in H
    | context [match ?p with (_, _) => _ end] => destruct p
    | context [match ?x with Ok _ => _ | Raise _ => _ end] =>
        let E := fresh "E" in destruct x eqn:E
    | context [match ?x with Some _ => _ | None => _ end] =>
        let E := fresh "E" in destruct x eqn:E
    | context [if ?b then _ else _] =>
        let E := fresh "E" in destruct b eqn:E
    end;
  simpl in H; first [discriminate H | injection H as <- <-].

Section Answers.
Context `{Config} `{Runtime} `{S3Client} `{Pillow}.

(** X5: status 400 is the answer to an event that could not be parsed, and
    to nothing else; nothing has been done by then. *)
Theorem status_400_means_bad_event (event : pyval) (t : list effect)
        (r : http_response) :
  lambda_handler event = (t, Ok r) -> statusCode r = 400%Z ->
  t = [] /\ exists e, parse_event event = Raise e
                      /\ body r = json_dumps ("Bad event: " +:+ str_exn e).
Proof.
  intros Hrun Hs. cases Hrun; try discriminate Hs.
  all: split; [done|]; by eexists.
Qed.

(** X6: status 413 is answered only for a fetched object whose reported
    length is not zero and above the ceiling; the fetch is all that
    happened.  An object within the ceiling is never refused as too large. *)
Theorem status_413_means_over_ceiling (event : pyval) (t : list effect)
        (r : http_response) :
  lambda_handler event = (t, Ok r) -> statusCode r = 413%Z ->
  exists bucket key response n,
    parse_event event = Ok (bucket, key)
    /\ get_object bucket key = Ok response
    /\ ContentLength response = Some n /\ n <> 0%Z
    /\ (MAX_INPUT_SIZE_BYTES < n)%Z
    /\ t = [GetObject bucket key].
Proof.
  intros Hrun Hs. cases Hrun; try discriminate Hs.
  all: match goal with E : too_large _ = Some _ |- _ =>
         apply too_large_spec in E; destruct E as (Hn & Hz & Hlt) end.
  all: by eexists _, _, _, _.
Qed.

(** X7: status 415 is answered only when [Image.open] or [image.load]
    raised on the bytes read; the run stopped there, with nothing encoded
    and nothing written. *)
Theorem status_415_means_undecodable (event : pyval) (t : list effect)
        (r : http_response) :
  lambda_handler event = (t, Ok r) -> statusCode r = 415%Z ->
  exists bucket key response data e,
    parse_event event = Ok (bucket, key)
    /\ get_object bucket key = Ok response /\ Body response = Ok data
    /\ (Image_open data = Raise e
        \/ exists im, Image_open data = Ok im /\ Image_load im = Raise e)
    /\ t = [GetObject bucket key; BodyRead; ImageOpen data]
    /\ body r = json_dumps ("File is not a valid image: " +:+ str_exn e).
Proof.
  intros Hrun Hs. cases Hrun; try discriminate Hs.
  all: match goal with
       | Ep : parse_event _ = Ok (?b, ?k), Eg : get_object ?b ?k = Ok ?resp,
         E : result_bind (Image_open ?d) _ = Raise ?e |- _ =>
           exists b, k, resp, d, e; unfold result_bind in E;
           destruct (Image_open d) as [im|e'] eqn:Eo;
           [ repeat split; try done; right; by exists im
           | injection E as ->; repeat split; try done; by left ]
       end.
Qed.

(** X8: status 500 names one of four failures, and the effects tell which:
    the fetch raised, the resize stage raised, the encoder raised, or the
    write raised.  In the first three nothing was written. *)
Theorem status_500_means_io_failure (event : pyval) (t : list effect)
        (r : http_response) :
  lambda_handler event = (t, Ok r) -> statusCode r = 500%Z ->
  exists bucket key,
    parse_event event = Ok (bucket, key)
    /\ ((exists e, get_object bucket key = Raise e
                   /\ t = [GetObject bucket key])
        \/ (exists data im e,
               resize_stage im = Raise e
               /\ t = [GetObject bucket key; BodyRead; ImageOpen data])
        \/ (exists data im output_format e,
               save im output_format (save_params output_format) = Raise e
               /\ t = [GetObject bucket key; BodyRead; ImageOpen data;
                       ImageSave im output_format (save_params output_format)])
        \/ (exists data im output_format encoded ct md e,
               put_object bucket (output_key key output_format) encoded ct md
               = Raise e
               /\ t = [GetObject bucket key; BodyRead; ImageOpen data;
                       ImageSave im output_format (save_params output_format);
                       PutObject bucket (output_key key output_format) encoded
                                 ct md])).
Proof.
  intros Hrun Hs. cases Hrun; try discriminate Hs.
  all: eexists _, _; split; [reflexivity|].
  all: first
    [ left; eexists; split; [eassumption | reflexivity]
    | right; left; eexists _, _, _; split; [eassumption | reflexivity]
    | right; right; left; eexists _, _, _, _; split; [eassumption | reflexivity]
    | right; right; right; eexists _, _, _, _, _, _, _;
      split; [eassumption | reflexivity] ].
Qed.

(** X9: status 200 means one of two things: the key was under the processed
    prefix and nothing was done, or the object was fetched, read, decoded,
    encoded and written, and the store accepted the write. *)
Theorem status_200_means_skipped_or_written (event : pyval) (t : list effect)
        (r : http_response) :
  lambda_handler event = (t, Ok r) -> statusCode r = 200%Z ->
  exists bucket key,
    parse_event event = Ok (bucket, key)
    /\ ((PyStr.startswith key PROCESSED_PREFIX = true /\ t = [])
        \/ (PyStr.startswith key PROCESSED_PREFIX = false
            /\ exists data im output_format encoded ct md,
                 put_object bucket (output_key key output_format) encoded ct md
                 = Ok tt
                 /\ t = [GetObject bucket key; BodyRead; ImageOpen data;
                         ImageSave im output_format (save_params output_format);
                         PutObject bucket (output_key key output_format) encoded
                                   ct md])).
Proof.
  intros Hrun Hs. cases Hrun; try discriminate Hs.
  all: eexists _, _; split; [reflexivity|].
  all: first
    [ by left
    | right; split; [done|];
      match goal with E : put_object _ _ _ _ _ = Ok ?u |- _ => destruct u end;
      eexists _, _, _, _, _, _; split; [eassumption | reflexivity] ].
Qed.

(** X10: the handler writes at most once, as the last thing it does, and
    only what the encoder returned: a write goes to the bucket the object
    was fetched from, under the key derived from the fetched key and the
    chosen format, with the bytes [save] answered. *)
Theorem write_is_last_and_encoded (event : pyval) (b : pyval) (k : string)
        (d : bytes) (ct : string) (md : gmap string string) :
  PutObject b k d ct md ∈ fst (lambda_handler event) ->
  exists bucket key data im output_format,
    parse_event event = Ok (bucket, key)
    /\ b = bucket /\ k = output_key key output_format
    /\ save im output_format (save_params output_format) = Ok d
    /\ fst (lambda_handler event)
       = [GetObject bucket key; BodyRead; ImageOpen data;
          ImageSave im output_format (save_params output_format);
          PutObject b k d ct md].
Proof.
  destruct (lambda_handler event) as [t r] eqn:Hrun. simpl.
  cases Hrun; rewrite ?elem_of_cons, ?elem_of_nil;
    intros Hin; repeat destruct Hin as [Hin|Hin]; try done;
    injection Hin as -> -> -> -> ->;
    eexists _, _, _, _, _; repeat split; first [reflexivity | eassumption].
Qed.

(** X11: an exception leaves the handler from two places only, and before
    anything is encoded or written: the read of the body, after the fetch,
    or the compositing for a JPEG format, after the decode. *)
Theorem escaping_exception_sources (event : pyval) (t : list effect) (e : exn) :
  lambda_handler event = (t, Raise e) ->
  exists bucket key response,
    parse_event event = Ok (bucket, key)
    /\ get_object bucket key = Ok response
    /\ ((Body response = Raise e /\ t = [GetObject bucket key; BodyRead])
        \/ (exists data decoded resized,
               Body response = Ok data
               /\ resize_stage decoded = Ok resized
               /\ is_jpeg (_determine_output_format (image_format decoded) decoded)
                  = true
               /\ _composite_for_jpeg resized = Raise e
               /\ t = [GetObject bucket key; BodyRead; ImageOpen data])).
Proof.
  intros Hrun. cases Hrun.
  all: eexists _, _, _; split; [reflexivity|]; split; [eassumption|].
  all: first
    [ by left
    | right;
      match goal with
      | E : (if is_jpeg ?f then _ else _) = Raise _ |- _ =>
          destruct (is_jpeg f) eqn:Ej; [|discriminate E]
      end;
      eexists _, _, _; repeat split; eassumption ].
Qed.

End Answers.

(** ** The output key and the processed prefix *)

Section PrefixFacts.
Import PyStr OsPath.

Lemma prefix_app_cancel (p a b : string) :
  String.prefix (p +:+ a) (p +:+ b) = String.prefix a b.
Proof.
  induction p as [|c p IH]; [done|].
  rewrite !app_cons. simpl. by destruct (ascii_dec c c).
Qed.

Lemma prefix_first_char (c : ascii) (x r y : string) (d : ascii) :
  contains c r = false -> d <> c ->
  String.prefix (String c x) (r +:+ String d y) = false.
Proof.
  intros Hr Hd. destruct r as [|a r]; rewrite ?app_nil_l, ?app_cons; simpl.
  - by destruct (ascii_dec c d) as [->|].
  - simpl in Hr. apply orb_false_iff in Hr as [Ha _].
    destruct (ascii_dec c a) as [->|]; [|done].
    by rewrite Ascii.eqb_refl in Ha.
Qed.

(** A string is what [rstrip] leaves of it, followed by the stripped
    characters. *)
Lemma rstrip_tail (c : ascii) (s : string) :
  exists n, s = rstrip c s +:+ repeat c n.
Proof.
  induction s as [|a s [n IH]]; [by exists 0%nat|]. simpl.
  destruct (rstrip c s) as [|b r] eqn:E.
  - destruct (Ascii.eqb_spec a c) as [->|].
    + exists (S n). rewrite app_nil_l in *. simpl. by rewrite <- IH.
    + exists n. rewrite app_cons. by rewrite <- IH.
  - exists n. rewrite app_cons. by rewrite <- IH.
Qed.

Lemma contains_take (c : ascii) (n : nat) (s : string) :
  contains c s = false -> contains c (take n s) = false.
Proof.
  revert n. induction s as [|a s IH]; intros [|n]; simpl; try done.
  intros [Ha Hs]%orb_false_iff. rewrite Ha. simpl. by apply IH.
Qed.

Lemma splitext_loop_answer (p : string) (dotIndex : Z) (n : nat) (i : Z)
      (r : string * string) :
  splitext_loop p dotIndex n i = Some r ->
  r = (slice_to dotIndex p, slice_from dotIndex p).
Proof.
  revert i. induction n as [|n IH]; intros i; simpl; [done|].
  destruct (negb _); [by intros [= <-] | apply IH].
Qed.

(** The root [splitext] answers is a leading part of the path. *)
Lemma splitext_root_take (p : string) : exists n, fst (splitext p) = take n p.
Proof.
  unfold splitext.
  assert (exists n, p = take n p) as Hp.
  { exists (String.length p). induction p as [|a p IH]; simpl; congruence. }
  destruct (_ <? _)%Z; [|done].
  destruct (splitext_loop _ _ _ _) as [r|] eqn:E; [|done].
  apply splitext_loop_answer in E as ->. by eexists.
Qed.

Lemma splitext_no_dot (f : string) :
  contains sep f = false -> contains extsep f = false ->
  splitext f = (f, EmptyString).
Proof.
  intros Hs Hd. unfold splitext.
  rewrite (rfind_absent _ _ Hs), (rfind_absent _ _ Hd). simpl.
  by destruct f.
Qed.

End PrefixFacts.

Section OutputKeyMore.
Context `{Config}.
Import PyStr OsPath.

(** The key written is under the processed prefix when the prefix ends in at
    most one separator. *)
Lemma output_key_under_prefix (p key output_format : string) :
  rstrip "/" p = p ->
  PROCESSED_PREFIX = p \/ PROCESSED_PREFIX = p +:+ "/" ->
  startswith (output_key key output_format) PROCESSED_PREFIX = true.
Proof.
  intros Hp Hor. unfold output_key.
  assert (rstrip "/" PROCESSED_PREFIX = p) as ->.
  { destruct Hor as [->| ->]; [done|]. by rewrite rstrip_snoc. }
  destruct Hor as [->| ->].
  - apply startswith_app.
  - rewrite <- app_assoc'. apply startswith_app.
Qed.

Lemma processed_subpath_flat (key output_format : string) :
  contains sep key = false ->
  exists root, contains sep root = false
               /\ processed_subpath key output_format
                  = root +:+ String extsep (lower output_format).
Proof.
  intros Hk. unfold processed_subpath.
  rewrite (basename_no_sep _ Hk).
  assert (dirname key = EmptyString) as ->.
  { rewrite dirname_directory_portion, (directory_portion_no_sep _ Hk). done. }
  simpl. destruct (splitext_root_take key) as [n ->].
  exists (take n key). split; [by apply contains_take | done].
Qed.

Lemma repeat_two_more (c : ascii) (m : nat) :
  exists tail,
    repeat c m +:+ String c (String c EmptyString) = String c (String c tail).
Proof.
  induction m as [|m [tail IH]]; [by exists EmptyString|].
  exists (String c tail). simpl repeat. by rewrite app_cons, IH.
Qed.

(** Under a prefix that ends in two separators or more, the key written for
    a key without directory is not under the prefix. *)
Lemma output_key_outside_prefix (q key output_format : string) :
  PROCESSED_PREFIX = q +:+ "//" -> contains sep key = false ->
  startswith (output_key key output_format) PROCESSED_PREFIX = false.
Proof.
  intros Hq Hk. unfold output_key, startswith.
  destruct (processed_subpath_flat key output_format Hk) as (root & Hroot & ->).
  rewrite Hq.
  change (q +:+ "//") with (q +:+ String sep (String sep EmptyString)).
  replace (q +:+ String sep (String sep EmptyString))
    with ((q +:+ String sep EmptyString) +:+ String sep EmptyString)
    by (by rewrite app_assoc').
  change "/"%char with sep. rewrite !rstrip_snoc.
  destruct (rstrip_tail sep q) as [m Hm]. rewrite Hm at 1.
  rewrite !app_assoc'. rewrite prefix_app_cancel.
  change (String sep EmptyString +:+ String sep EmptyString)
    with (String sep (String sep EmptyString)).
  destruct (repeat_two_more sep m) as [tail ->].
  change ("/" +:+ root +:+ String extsep (lower output_format))
    with (String sep (root +:+ String extsep (lower output_format))).
  simpl. destruct (ascii_dec sep sep); [|done].
  by apply prefix_first_char.
Qed.

End OutputKeyMore.

Section PrefixClaims.
Context `{Config} `{Runtime} `{S3Client} `{Pillow}.
Import PyStr OsPath.

(** X12: when the processed prefix ends in at most one separator, every key
    the handler derives is under the prefix, so the event the store sends
    for the handler's own output is skipped with nothing done. *)
Theorem own_output_is_skipped (p key output_format : string)
        (event bucket : pyval) :
  rstrip "/" p = p ->
  PROCESSED_PREFIX = p \/ PROCESSED_PREFIX = p +:+ "/" ->
  parse_event event = Ok (bucket, output_key key output_format) ->
  startswith (output_key key output_format) PROCESSED_PREFIX = true
  /\ lambda_handler event
     = ([], Ok {| statusCode := 200;
                  body := json_dumps ("Skipping " +:+ output_key key output_format
                            +:+ " because it is under the processed prefix.") |}).
Proof.
  intros Hp Hor Hev.
  pose proof (output_key_under_prefix p key output_format Hp Hor) as Hunder.
  split; [done|]. exact (lambda_handler_skip _ _ _ Hev Hunder).
Qed.

(** X13: under such a prefix the handler never writes to the key it read:
    the key of its write differs from the key of its fetch. *)
Theorem never_overwrites_source (p : string) (event : pyval)
        (b b' : pyval) (k k' : string) (d : bytes) (ct : string)
        (md : gmap string string) :
  rstrip "/" p = p ->
  PROCESSED_PREFIX = p \/ PROCESSED_PREFIX = p +:+ "/" ->
  PutObject b k d ct md ∈ fst (lambda_handler event) ->
  GetObject b' k' ∈ fst (lambda_handler event) ->
  k <> k'.
Proof.
  intros Hp Hor. destruct (lambda_handler event) as [t r] eqn:Hrun. simpl.
  cases Hrun; rewrite ?elem_of_cons, ?elem_of_nil;
    intros Hput; repeat destruct Hput as [Hput|Hput]; try done;
    injection Hput as -> -> -> -> ->;
    intros Hget; repeat destruct Hget as [Hget|Hget]; try done;
    injection Hget as -> ->; intros Heq;
    match goal with
    | E : startswith ?key PROCESSED_PREFIX = false |- _ =>
        rewrite <- Heq in E;
        by rewrite (output_key_under_prefix p _ _ Hp Hor) in E
    end.
Qed.

(** X14: with an empty processed prefix every key counts as processed: any
    event that parses is skipped and the store is never touched. *)
Theorem empty_prefix_skips_everything (event bucket : pyval) (key : string) :
  PROCESSED_PREFIX = EmptyString ->
  parse_event event = Ok (bucket, key) ->
  lambda_handler event
  = ([], Ok {| statusCode := 200;
               body := json_dumps ("Skipping " +:+ key
                         +:+ " because it is under the processed prefix.") |}).
Proof.
  intros Hp Hev. apply (lambda_handler_skip _ _ _ Hev).
  rewrite Hp. unfold startswith. by destruct key.
Qed.

(** X15: with a processed prefix that ends in two separators the recursion
    guard does not recognise the handler's own output: the key derived from
    a key without directory is outside the prefix, and the event for it
    makes the handler fetch it again. *)
Theorem double_separator_prefix_refetches (q key output_format : string)
        (event bucket : pyval) :
  PROCESSED_PREFIX = q +:+ "//" -> contains "/" key = false ->
  parse_event event = Ok (bucket, output_key key output_format) ->
  startswith (output_key key output_format) PROCESSED_PREFIX = false
  /\ exists rest,
       fst (lambda_handler event)
       = GetObject bucket (output_key key output_format) :: rest.
Proof.
  intros Hq Hk Hev.
  pose proof (output_key_outside_prefix q key output_format Hq Hk) as Hout.
  split; [done|].
  rewrite lambda_handler_unfold, Hev, Hout.
  destruct (get_object _ _) as [response|]; [|by eexists].
  destruct (too_large _); [by eexists|].
  destruct (Body response); by eexists.
Qed.

End PrefixClaims.

Section KeyShapes.
Context `{Config}.
Import PyStr OsPath.

(** X16: the extension of the input is dropped, so two keys that differ
    only in their extension are written to the same key. *)
Theorem extension_is_forgotten (d r e e' output_format : string) :
  truthy d = true -> rstrip "/" d = d ->
  contains "/" r = false -> only "." r = false ->
  contains "/" e = false -> contains "." e = false ->
  contains "/" e' = false -> contains "." e' = false ->
  output_key (d +:+ "/" +:+ r +:+ "." +:+ e) output_format
  = output_key (d +:+ "/" +:+ r +:+ "." +:+ e') output_format
  /\ output_key (r +:+ "." +:+ e) output_format
     = output_key (r +:+ "." +:+ e') output_format.
Proof.
  intros Hd Hs Hr Hor He Hde He' Hde'.
  rewrite !output_key_nested, !output_key_flat by done. done.
Qed.

(** X17: a file name without a dot has nothing replaced: the extension of
    the output format is appended to it, also when the name is empty (a key
    that ends in a separator). *)
Theorem extension_is_appended (d f output_format : string) :
  contains "/" f = false -> contains "." f = false ->
  (truthy d = true -> rstrip "/" d = d ->
   output_key (d +:+ "/" +:+ f) output_format
   = rstrip "/" PROCESSED_PREFIX +:+ "/" +:+ d +:+ "/" +:+ f +:+ "."
       +:+ lower output_format)
  /\ output_key f output_format
     = rstrip "/" PROCESSED_PREFIX +:+ "/" +:+ f +:+ "." +:+ lower output_format.
Proof.
  intros Hf Hdot. split.
  - intros Hd Hs.
    change (d +:+ "/" +:+ f) with (d +:+ String sep f).
    rewrite output_key_mapKey by (by apply plain_directory_split).
    unfold Spec.mapKey.
    rewrite (directory_portion_split _ _ Hf), (basename_split _ _ Hf).
    rewrite (splitext_no_dot _ Hf Hdot). simpl fst. by rewrite !app_assoc'.
  - rewrite output_key_mapKey.
    + unfold Spec.mapKey.
      rewrite (directory_portion_no_sep _ Hf), (basename_no_sep _ Hf).
      by rewrite (splitext_no_dot _ Hf Hdot).
    + unfold plain_directory. by rewrite (directory_portion_no_sep _ Hf).
Qed.

End KeyShapes.

(** ** What is encoded and written *)

Section Written.
Context `{Config} `{Runtime} `{S3Client} `{P : Pillow}.



Lemma save_params_table (output_format : string) :
  output_format ∈ ["JPEG"; "JPG"; "PNG"; "WEBP"] ->
  (output_format = "JPEG" \/ output_format = "JPG")
    /\ save_params output_format
       = {[ "quality" := PInt 85; "optimize" := PBool true ]}
  \/ output_format = "PNG"
     /\ save_params output_format = {[ "optimize" := PBool true ]}
  \/ output_format = "WEBP" /\ save_params output_format = ∅.
Proof.
  rewrite !elem_of_cons, elem_of_nil. intros [->|[->|[->|[->|[]]]]].
  - left. split; [by left | reflexivity].
  - left. split; [by right | reflexivity].
  - right. left. split; [done | reflexivity].
  - right. right. split; [done | reflexivity].
Qed.

(** X19: the encoder is run with the parameters of the format's row: quality
    85 and optimize for JPEG and JPG, optimize alone for PNG, none for WEBP;
    and the format is one of those four. *)
Theorem encoder_parameters (event : pyval) (im : image) (output_format : string)
        (params : gmap string pyval) :
  ImageSave im output_format params ∈ fst (lambda_handler event) ->
  (output_format = "JPEG" \/ output_format = "JPG")
    /\ params = {[ "quality" := PInt 85; "optimize" := PBool true ]}
  \/ output_format = "PNG" /\ params = {[ "optimize" := PBool true ]}
  \/ output_format = "WEBP" /\ params = ∅.
Proof.
  destruct (lambda_handler event) as [t r] eqn:Hrun. simpl.
  cases Hrun; rewrite ?elem_of_cons, ?elem_of_nil;
    intros Hin; repeat destruct Hin as [Hin|Hin]; try done;
    injection Hin as -> -> ->;
    apply save_params_table, determine_output_format_range.
Qed.

End Written.

Section Encoded.
Context `{Config} `{Runtime} `{S3Client} `{P : Pillow}.

Lemma resize_stage_size `{!PillowSizeLaws P} (im resized : image) :
  resize_stage im = Ok resized -> image_size resized = OUTPUT_SIZE.
Proof.
  unfold resize_stage, result_bind.
  destruct (exif_transpose im) as [im1|]; [|done].
  destruct (normalize_mode im1) as [im2|]; [|done].
  by apply resize_size.
Qed.

Lemma composite_for_jpeg_size `{!PillowSizeLaws P} (im out : image) :
  image_size im = OUTPUT_SIZE ->
  _composite_for_jpeg im = Ok out -> image_size out = OUTPUT_SIZE.
Proof.
  intros Hsize. unfold _composite_for_jpeg, result_bind, OUTPUT_SIZE in *.
  destruct (_ || _).
  - rewrite Hsize.
    destruct (Image_new _ _ _) as [bg|] eqn:Ebg; [|done].
    destruct (convert im "RGBA") as [src|]; [|done].
    destruct (alpha_band src) as [mask|]; [|done].
    intros Ep. rewrite (paste_size _ _ _ _ Ep).
    apply (new_size "RGB" 256%Z 256%Z (255, 255, 255)%Z bg); [lia | lia | exact Ebg].
  - intros Ec. by rewrite (convert_size _ _ _ Ec).
Qed.

(** X20: whatever the size of the decoded image, the image handed to the
    encoder is 256 by 256. *)
Theorem encoder_input_size `{!PillowSizeLaws P} (event : pyval) (im : image)
        (output_format : string) (params : gmap string pyval) :
  ImageSave im output_format params ∈ fst (lambda_handler event) ->
  image_size im = (256, 256)%Z.
Proof.
  destruct (lambda_handler event) as [t r] eqn:Hrun. simpl.
  cases Hrun; rewrite ?elem_of_cons, ?elem_of_nil;
    intros Hin; repeat destruct Hin as [Hin|Hin]; try done;
    injection Hin as -> -> ->;
    match goal with
    | Er : resize_stage _ = Ok ?rz,
      Ec : (if ?j then _composite_for_jpeg ?rz else Ok ?rz) = Ok _ |- _ =>
        apply resize_stage_size in Er; destruct j;
        [ exact (composite_for_jpeg_size _ _ Er Ec) | by injection Ec as <- ]
    end.
Qed.

(** X21: the image handed to the encoder is in mode RGB or RGBA, and in
    RGBA only under a format other than JPEG and JPG. *)
Theorem encoder_input_mode `{!PillowLaws P} (event : pyval) (im : image)
        (output_format : string) (params : gmap string pyval) :
  ImageSave im output_format params ∈ fst (lambda_handler event) ->
  image_mode im = "RGB"
  \/ (image_mode im = "RGBA" /\ is_jpeg output_format = false).
Proof.
  destruct (lambda_handler event) as [t r] eqn:Hrun. simpl.
  cases Hrun; rewrite ?elem_of_cons, ?elem_of_nil;
    intros Hin; repeat destruct Hin as [Hin|Hin]; try done;
    injection Hin as -> -> ->;
    match goal with
    | Er : resize_stage ?dec = Ok ?rz,
      Ec : (if ?j then _composite_for_jpeg ?rz else Ok ?rz) = Ok _ |- _ =>
        apply resize_stage_mode in Er; destruct j eqn:Ej;
        [ left; exact (composite_for_jpeg_mode _ _ Ec)
        | injection Ec as <-; rewrite Er;
          destruct (PyStr.contains _ (image_mode dec)); [by right | by left] ]
    end.
Qed.

(** X22: an image whose mode name has the letter A and whose format is not
    one of the four known names is encoded as PNG, and the encoder gets the
    resized image itself, still in RGBA: nothing is composited. *)
Theorem alpha_without_hint_kept_as_png `{!PillowLaws P}
        (event bucket : pyval) (key : string) (response : get_object_output)
        (data : bytes) (opened decoded resized : image) :
  parse_event event = Ok (bucket, key) ->
  PyStr.startswith key PROCESSED_PREFIX = false ->
  get_object bucket key = Ok response ->
  too_large (ContentLength response) = None ->
  Body response = Ok data ->
  Image_open data = Ok opened -> Image_load opened = Ok decoded ->
  (forall h, image_format decoded = Some h ->
             PyStr.upper h ∉ ["JPEG"; "JPG"; "PNG"; "WEBP"]) ->
  PyStr.contains "A" (image_mode decoded) = true ->
  resize_stage decoded = Ok resized ->
  image_mode resized = "RGBA"
  /\ exists rest,
       fst (lambda_handler event)
       = GetObject bucket key :: BodyRead :: ImageOpen data
           :: ImageSave resized "PNG" {[ "optimize" := PBool true ]} :: rest.
Proof.
  intros Hp Hs Hg Ht Hb Ho Hl Hfmt Ha Hr. split.
  - rewrite (resize_stage_mode _ _ Hr). by rewrite Ha.
  - rewrite lambda_handler_unfold, Hp, Hs, Hg, Ht, Hb. simpl.
    rewrite process_body_unfold. unfold result_bind. rewrite Ho, Hl. cbv zeta.
    rewrite (determine_output_format_fallback _ _ Hfmt), Ha, Hr.
    change (is_jpeg "PNG") with false. cbv iota.
    change (save_params "PNG") with ({[ "optimize" := PBool true ]} : gmap string pyval).
    destruct (save _ _ _); [|by eexists].
    destruct (put_object _ _ _ _ _); by eexists.
Qed.

End Encoded.

(** ** The reference instance and sizes *)

Lemma ref_pillow_size_laws : PillowSizeLaws Ref.pillow.
Proof.
  split; simpl.
  - intros im w h f im' Hw Hh. unfold Ref.ref_resize. simpl. intros [= <-].
    unfold Ref.r_size. simpl.
    rewrite length_map, length_seq.
    destruct (Z.to_nat h) as [|n] eqn:En; [lia|]. simpl.
    rewrite length_map, length_seq. f_equal; lia.
  - intros m w h [[r g] b] im Hw Hh. unfold Ref.ref_new. simpl. intros [= <-].
    unfold Ref.r_size. simpl. rewrite length_replicate.
    destruct (Z.to_nat h) as [|n] eqn:En; [lia|]. simpl.
    rewrite length_replicate. f_equal; lia.
  - intros im m im'. unfold Ref.ref_convert.
    destruct (Ref.known_mode m); [|done]. intros [= <-].
    unfold Ref.r_size. simpl. destruct (PyStr.contains _ _); [done|].
    rewrite length_map. destruct (Ref.r_rows im); simpl; [done|].
    by rewrite length_map.
  - intros bg src mask im. unfold Ref.ref_paste.
    destruct (bool_decide _) eqn:Hsz; [|done]. intros [= <-].
    apply bool_decide_eq_true in Hsz as [Hbs Hsm].
    unfold Ref.r_size in *. simpl.
    injection Hbs as Hw1 Hh1. injection Hsm as Hw2 Hh2.
    apply Nat2Z.inj in Hw1, Hh1, Hw2, Hh2.
    rewrite length_zip_with, length_zip.
    destruct (Ref.r_rows bg) as [|rb bgs], (Ref.r_rows src) as [|rs srcs],
      (Ref.r_rows mask) as [|rm masks]; simpl in *; try done.
    rewrite length_zip_with, length_zip. f_equal; lia.
Qed.


(** ** The properties on the reference instance *)

Lemma first_record_only_witness :
  RefWorld.handler
    (PDict [("Records", PList [RefCases.s3_record "imagery" (PStr "raw/a.bmp");
                               RefCases.s3_record "imagery" (PStr "raw/huge.bmp")]);
            ("requestId", PInt 7)])
  = RefWorld.handler
      (PDict [("Records", PList [RefCases.s3_record "imagery" (PStr "raw/a.bmp")])]).
Proof.
  unfold RefWorld.handler. eapply first_record_only; reflexivity.
Defined.

Lemma missing_record_message_witness :
  RefWorld.handler (PDict [("Records", PList [])])
  = ([], Ok {| statusCode := 400;
               body := @json_dumps RefWorld.runtime
                         "Bad event: Invalid event structure: expected event['Records'][0]" |}).
Proof.
  exact (@missing_record_message RefWorld.config RefWorld.runtime
           (RefWorld.s3 RefWorld.bucket_name RefWorld.objects true) Ref.pillow
           (PDict [("Records", PList [])]) (IndexError "list") eq_refl).
Defined.

Lemma fetch_follows_event_witness :
  @parse_event RefWorld.runtime (RefWorld.s3_event "imagery" "raw%2Fa+b.bmp")
  = Ok (PStr "imagery", "raw/a b.bmp")
  /\ exists rest,
       fst (RefWorld.handler (RefWorld.s3_event "imagery" "raw%2Fa+b.bmp"))
       = GetObject (PStr "imagery") "raw/a b.bmp" :: rest.
Proof.
  destruct (@fetch_follows_event RefWorld.config RefWorld.runtime
              (RefWorld.s3 RefWorld.bucket_name RefWorld.objects true) Ref.pillow
              (RefWorld.s3_event "imagery" "raw%2Fa+b.bmp")
              (RefCases.s3_record "imagery" (PStr "raw%2Fa+b.bmp"))
              (PDict [("bucket", PDict [("name", PStr "imagery")]);
                      ("object", PDict [("key", PStr "raw%2Fa+b.bmp")])])
              (PDict [("name", PStr "imagery")]) (PStr "imagery")
              (PDict [("key", PStr "raw%2Fa+b.bmp")]) "raw%2Fa+b.bmp"
              eq_refl eq_refl eq_refl eq_refl eq_refl eq_refl) as [Hparse Hfetch].
  split; [exact Hparse | exact (Hfetch eq_refl)].
Defined.

Lemma non_string_key_rejected_witness :
  RefWorld.handler (PDict [("Records", PList [RefCases.s3_record "imagery" (PInt 5)])])
  = ([], Ok {| statusCode := 400;
               body := @json_dumps RefWorld.runtime
                         "Bad event: 'int' object has no attribute 'replace'" |}).
Proof.
  apply (@non_string_key_rejected RefWorld.config RefWorld.runtime
           (RefWorld.s3 RefWorld.bucket_name RefWorld.objects true) Ref.pillow
           _ (RefCases.s3_record "imagery" (PInt 5))
           (PDict [("bucket", PDict [("name", PStr "imagery")]);
                   ("object", PDict [("key", PInt 5)])])
           (PDict [("name", PStr "imagery")]) (PStr "imagery")
           (PDict [("key", PInt 5)]) (PInt 5));
    try reflexivity.
  intros s. discriminate.
Defined.

Lemma status_400_means_bad_event_witness :
  exists e, @parse_event RefWorld.runtime (PInt 3) = Raise e
            /\ @json_dumps RefWorld.runtime
                 "Bad event: Invalid event structure: expected event['Records'][0]"
               = @json_dumps RefWorld.runtime
                   ("Bad event: " +:+ @str_exn RefWorld.runtime e).
Proof.
  destruct (@status_400_means_bad_event RefWorld.config RefWorld.runtime
              (RefWorld.s3 RefWorld.bucket_name RefWorld.objects true) Ref.pillow
              (PInt 3) [] _ eq_refl eq_refl) as [_ He].
  exact He.
Defined.

Lemma status_413_means_over_ceiling_witness :
  exists bucket key response n,
    @parse_event RefWorld.runtime (RefWorld.s3_event "imagery" "raw/huge.bmp")
    = Ok (bucket, key)
    /\ @get_object (RefWorld.s3 RefWorld.bucket_name RefWorld.objects true)
         bucket key = Ok response
    /\ ContentLength response = Some n /\ n <> 0%Z
    /\ (@MAX_INPUT_SIZE_BYTES RefWorld.config < n)%Z
    /\ [@GetObject Ref.pillow (PStr "imagery") "raw/huge.bmp"]
       = [GetObject bucket key].
Proof.
  exact (@status_413_means_over_ceiling RefWorld.config RefWorld.runtime
           (RefWorld.s3 RefWorld.bucket_name RefWorld.objects true) Ref.pillow
           (RefWorld.s3_event "imagery" "raw/huge.bmp") _ _ eq_refl eq_refl).
Defined.

Lemma status_415_means_undecodable_witness :
  exists bucket key response data e,
    @parse_event RefWorld.runtime (RefWorld.s3_event "imagery" "raw/garbage.bin")
    = Ok (bucket, key)
    /\ @get_object RefCases.world bucket key = Ok response
    /\ Body response = Ok data
    /\ (@Image_open Ref.pillow data = Raise e
        \/ exists im, @Image_open Ref.pillow data = Ok im
                      /\ @Image_load Ref.pillow im = Raise e)
    /\ [@GetObject Ref.pillow (PStr "imagery") "raw/garbage.bin"; BodyRead;
        ImageOpen RefCases.garbage]
       = [GetObject bucket key; BodyRead; ImageOpen data]
    /\ @json_dumps RefWorld.runtime "File is not a valid image: cannot identify image file"
       = @json_dumps RefWorld.runtime
           ("File is not a valid image: " +:+ @str_exn RefWorld.runtime e).
Proof.
  exact (@status_415_means_undecodable RefWorld.config RefWorld.runtime
           RefCases.world Ref.pillow
           (RefWorld.s3_event "imagery" "raw/garbage.bin") _ _ eq_refl eq_refl).
Defined.

Lemma status_500_means_io_failure_witness :
  exists e,
    @get_object (RefWorld.s3 RefWorld.bucket_name RefWorld.objects true)
      (PStr "imagery") "raw/none.bmp" = Raise e.
Proof.
  destruct (@status_500_means_io_failure RefWorld.config RefWorld.runtime
              (RefWorld.s3 RefWorld.bucket_name RefWorld.objects true) Ref.pillow
              (RefWorld.s3_event "imagery" "raw/none.bmp") _ _ eq_refl eq_refl)
    as (bucket & key & [= <- <-] & Hcases).
  by eexists.
Defined.

Lemma status_200_means_skipped_or_written_witness :
  exists bucket key,
    @parse_event RefWorld.runtime (RefWorld.s3_event "imagery" "processed/x.png")
    = Ok (bucket, key)
    /\ PyStr.startswith key (@PROCESSED_PREFIX RefWorld.config) = true.
Proof.
  destruct (@status_200_means_skipped_or_written RefWorld.config RefWorld.runtime
              (RefWorld.s3 RefWorld.bucket_name RefWorld.objects true) Ref.pillow
              (RefWorld.s3_event "imagery" "processed/x.png") _ _ eq_refl eq_refl)
    as (bucket & key & Hp & Hcases).
  exists bucket, key. split; [exact Hp|].
  injection Hp as <- <-. reflexivity.
Defined.

(** The run of the reference handler on the PNG of the reference store. *)
Lemma ref_png_run :
  exists im output_format encoded,
    fst (RefWorld.handler (RefWorld.s3_event "imagery" "photos/in.png"))
    = [GetObject (PStr "imagery") "photos/in.png"; BodyRead;
       ImageOpen RefWorld.rgba_png;
       ImageSave im output_format (save_params output_format);
       PutObject (PStr "imagery")
                 (@output_key RefWorld.config "photos/in.png" output_format)
                 encoded (content_type output_format None)
                 RefWorld.sample_metadata].
Proof.
  assert (RefWorld.status
            (RefWorld.handler (RefWorld.s3_event "imagery" "photos/in.png"))
          = Some 200%Z) as Hstatus by (vm_compute; reflexivity).
  revert Hstatus. unfold RefWorld.handler, RefWorld.status.
  rewrite (@lambda_handler_fetched RefWorld.config RefWorld.runtime
             (RefWorld.s3 RefWorld.bucket_name RefWorld.objects true) Ref.pillow
             (RefWorld.s3_event "imagery" "photos/in.png") (PStr "imagery")
             "photos/in.png"
             (RefWorld.object (Ok RefWorld.rgba_png) (Some 15%Z)
                              RefWorld.sample_metadata)
             eq_refl eq_refl eq_refl).
  rewrite (@process_response_read RefWorld.config RefWorld.runtime
             (RefWorld.s3 RefWorld.bucket_name RefWorld.objects true) Ref.pillow
             (PStr "imagery") "photos/in.png"
             (RefWorld.object (Ok RefWorld.rgba_png) (Some 15%Z)
                              RefWorld.sample_metadata)
             RefWorld.rgba_png eq_refl eq_refl).
  simpl fst. simpl snd.
  destruct (process_body _ _ _ _) as [t [r|e]] eqn:E; simpl; [|done].
  intros [= Hr].
  destruct (process_body_success _ _ _ _ _ _ E Hr) as (im & fmt & encoded & -> & _).
  by exists im, fmt, encoded.
Qed.

Lemma write_is_last_and_encoded_witness :
  exists b k d ct md bucket key data im output_format,
    @parse_event RefWorld.runtime (RefWorld.s3_event "imagery" "photos/in.png")
    = Ok (bucket, key)
    /\ b = bucket /\ k = @output_key RefWorld.config key output_format
    /\ @save Ref.pillow im output_format (save_params output_format) = Ok d
    /\ fst (RefWorld.handler (RefWorld.s3_event "imagery" "photos/in.png"))
       = [GetObject bucket key; BodyRead; ImageOpen data;
          ImageSave im output_format (save_params output_format);
          PutObject b k d ct md].
Proof.
  destruct ref_png_run as (im & fmt & encoded & Hrun).
  eexists _, _, _, _, _.
  eapply (@write_is_last_and_encoded RefWorld.config RefWorld.runtime
            (RefWorld.s3 RefWorld.bucket_name RefWorld.objects true) Ref.pillow
            (RefWorld.s3_event "imagery" "photos/in.png")).
  fold (RefWorld.handler (RefWorld.s3_event "imagery" "photos/in.png")).
  rewrite Hrun. rewrite !elem_of_cons. do 4 right. by left.
Defined.

Lemma escaping_exception_sources_witness :
  exists bucket key response,
    @parse_event RefWorld.runtime (RefWorld.s3_event "imagery" "raw/broken.bmp")
    = Ok (bucket, key)
    /\ @get_object (RefWorld.s3 RefWorld.bucket_name RefWorld.objects true)
         bucket key = Ok response
    /\ Body response = Raise (LibraryError "Connection broken: IncompleteRead").
Proof.
  destruct (@escaping_exception_sources RefWorld.config RefWorld.runtime
              (RefWorld.s3 RefWorld.bucket_name RefWorld.objects true) Ref.pillow
              (RefWorld.s3_event "imagery" "raw/broken.bmp") _ _ eq_refl)
    as (bucket & key & response & Hp & Hg & Hcases).
  exists bucket, key, response. split; [exact Hp|]. split; [exact Hg|].
  injection Hp as <- <-. injection Hg as <-. reflexivity.
Defined.

Lemma own_output_is_skipped_witness :
  RefWorld.handler (RefWorld.s3_event "imagery" "processed/a/b.png")
  = ([], Ok {| statusCode := 200;
               body := @json_dumps RefWorld.runtime
                         "Skipping processed/a/b.png because it is under the processed prefix." |}).
Proof.
  apply (@own_output_is_skipped RefWorld.config RefWorld.runtime
           (RefWorld.s3 RefWorld.bucket_name RefWorld.objects true) Ref.pillow
           "processed" "a/b.bmp" "PNG"
           (RefWorld.s3_event "imagery" "processed/a/b.png") (PStr "imagery")
           eq_refl (or_intror eq_refl) eq_refl).
Defined.

Lemma never_overwrites_source_witness :
  exists output_format,
    @output_key RefWorld.config "photos/in.png" output_format <> "photos/in.png".
Proof.
  destruct ref_png_run as (im & fmt & encoded & Hrun).
  exists fmt.
  apply (@never_overwrites_source RefWorld.config RefWorld.runtime
           (RefWorld.s3 RefWorld.bucket_name RefWorld.objects true) Ref.pillow
           "processed" (RefWorld.s3_event "imagery" "photos/in.png")
           (PStr "imagery") (PStr "imagery") _ _ encoded
           (content_type fmt None) RefWorld.sample_metadata
           eq_refl (or_intror eq_refl));
    fold (RefWorld.handler (RefWorld.s3_event "imagery" "photos/in.png"));
    rewrite Hrun.
  - rewrite !elem_of_cons. do 4 right. by left.
  - rewrite !elem_of_cons. by left.
Defined.

Lemma empty_prefix_skips_everything_witness :
  @lambda_handler RefCases.empty_prefix RefWorld.runtime
    (RefWorld.s3 RefWorld.bucket_name RefWorld.objects true) Ref.pillow
    (RefWorld.s3_event "imagery" "raw/a.bmp")
  = ([], Ok {| statusCode := 200;
               body := @json_dumps RefWorld.runtime
                         "Skipping raw/a.bmp because it is under the processed prefix." |}).
Proof.
  exact (@empty_prefix_skips_everything RefCases.empty_prefix RefWorld.runtime
           (RefWorld.s3 RefWorld.bucket_name RefWorld.objects true) Ref.pillow
           (RefWorld.s3_event "imagery" "raw/a.bmp") (PStr "imagery") "raw/a.bmp"
           eq_refl eq_refl).
Defined.

Lemma double_separator_prefix_refetches_witness :
  @output_key RefCases.doubled_prefix "c.bmp" "PNG" = "processed/c.png"
  /\ PyStr.startswith "processed/c.png" "processed//" = false
  /\ exists rest,
       fst (@lambda_handler RefCases.doubled_prefix RefWorld.runtime
              RefCases.world Ref.pillow
              (RefWorld.s3_event "imagery" "processed/c.png"))
       = GetObject (PStr "imagery") "processed/c.png" :: rest.
Proof.
  destruct (@double_separator_prefix_refetches RefCases.doubled_prefix
              RefWorld.runtime RefCases.world Ref.pillow
              "processed" "c.bmp" "PNG"
              (RefWorld.s3_event "imagery" "processed/c.png") (PStr "imagery")
              eq_refl eq_refl eq_refl) as [Hout Hfetch].
  split; [reflexivity|]. split; [exact Hout | exact Hfetch].
Defined.

Lemma extension_is_forgotten_witness :
  @output_key RefWorld.config "photos/a.bmp" "JPEG"
  = @output_key RefWorld.config "photos/a.gif" "JPEG".
Proof.
  apply (@extension_is_forgotten RefWorld.config "photos" "a" "bmp" "gif" "JPEG");
    reflexivity.
Defined.

Lemma extension_is_appended_witness :
  @output_key RefWorld.config "docs/README" "PNG" = "processed/docs/README.png"
  /\ @output_key RefWorld.config "README" "PNG" = "processed/README.png".
Proof.
  destruct (@extension_is_appended RefWorld.config "docs" "README" "PNG"
              eq_refl eq_refl) as [Hnested Hflat].
  split; [exact (Hnested eq_refl eq_refl) | exact Hflat].
Defined.


Lemma encoder_parameters_witness :
  exists output_format,
    (output_format = "JPEG" \/ output_format = "JPG")
      /\ save_params output_format
         = {[ "quality" := PInt 85; "optimize" := PBool true ]}
    \/ output_format = "PNG"
       /\ save_params output_format = {[ "optimize" := PBool true ]}
    \/ output_format = "WEBP" /\ save_params output_format = ∅.
Proof.
  destruct ref_png_run as (im & fmt & encoded & Hrun).
  exists fmt.
  eapply (@encoder_parameters RefWorld.config RefWorld.runtime
            (RefWorld.s3 RefWorld.bucket_name RefWorld.objects true) Ref.pillow
            (RefWorld.s3_event "imagery" "photos/in.png") im).
  fold (RefWorld.handler (RefWorld.s3_event "imagery" "photos/in.png")).
  rewrite Hrun, !elem_of_cons. do 3 right. by left.
Defined.

Lemma encoder_input_size_witness :
  exists im : Ref.raster,
    Ref.r_size im = (256, 256)%Z
    /\ exists output_format params,
         @ImageSave Ref.pillow im output_format params
           ∈ fst (RefWorld.handler (RefWorld.s3_event "imagery" "photos/in.png")).
Proof.
  destruct ref_png_run as (im & fmt & encoded & Hrun).
  assert (ImageSave im fmt (save_params fmt)
            ∈ fst (RefWorld.handler (RefWorld.s3_event "imagery" "photos/in.png")))
    as Hin by (rewrite Hrun, !elem_of_cons; do 3 right; by left).
  exists im. split; [|by eexists _, _].
  exact (@encoder_input_size RefWorld.config RefWorld.runtime
           (RefWorld.s3 RefWorld.bucket_name RefWorld.objects true) Ref.pillow
           ref_pillow_size_laws _ _ _ _ Hin).
Defined.

Lemma encoder_input_mode_witness :
  exists (im : Ref.raster) output_format,
    Ref.r_mode im = "RGB"
    \/ (Ref.r_mode im = "RGBA" /\ is_jpeg output_format = false).
Proof.
  destruct ref_png_run as (im & fmt & encoded & Hrun).
  assert (ImageSave im fmt (save_params fmt)
            ∈ fst (RefWorld.handler (RefWorld.s3_event "imagery" "photos/in.png")))
    as Hin by (rewrite Hrun, !elem_of_cons; do 3 right; by left).
  exists im, fmt.
  exact (@encoder_input_mode RefWorld.config RefWorld.runtime
           (RefWorld.s3 RefWorld.bucket_name RefWorld.objects true) Ref.pillow
           ref_pillow_laws _ _ _ _ Hin).
Defined.

Lemma alpha_without_hint_kept_as_png_witness :
  match @resize_stage Ref.pillow RefCases.decoded_alpha_bmp with
  | Ok resized =>
      Ref.r_mode resized = "RGBA"
      /\ exists rest,
           fst (RefCases.handler (RefWorld.s3_event "imagery" "raw/alpha.bmp"))
           = GetObject (PStr "imagery") "raw/alpha.bmp" :: BodyRead
               :: ImageOpen RefCases.alpha_bmp
               :: ImageSave resized "PNG" {[ "optimize" := PBool true ]} :: rest
  | Raise _ => False
  end.
Proof.
  assert (RefWorld.is_ok (@resize_stage Ref.pillow RefCases.decoded_alpha_bmp) = true)
    as Hok by (vm_compute; reflexivity).
  destruct (@resize_stage Ref.pillow RefCases.decoded_alpha_bmp) as [resized|] eqn:E;
    [|discriminate Hok].
  apply (@alpha_without_hint_kept_as_png RefWorld.config RefWorld.runtime
           RefCases.world Ref.pillow ref_pillow_laws
           (RefWorld.s3_event "imagery" "raw/alpha.bmp") (PStr "imagery")
           "raw/alpha.bmp" (RefWorld.object (Ok RefCases.alpha_bmp) None ∅)
           RefCases.alpha_bmp RefCases.decoded_alpha_bmp
           RefCases.decoded_alpha_bmp resized);
    try reflexivity; [|exact E].
  intros h [= <-]. change (PyStr.upper "BMP") with "BMP".
  rewrite !elem_of_cons, elem_of_nil. intros [?|[?|[?|[?|[]]]]]; discriminate.
Defined.
